(** * Session authentication of the todo service

    A shallow embedding of [auth_utils.py] (class [AuthJwtCsrf]), of the
    record functions of [database.py] and of the handlers of
    [routers/route_auth.py] and [routers/route_todo.py].

    Python code that raises is a computation in an exception-and-state
    monad; the state is the world a request handler runs in: the wall
    clock, the [Response] object handed to the handler, the todo
    collection, and a log of the calls made to the collaborators.

    The third-party packages are not part of the repository.  The signing
    of PyJWT, the hash check of passlib and the two methods of
    [CsrfProtect] are parameters; what the development assumes about them
    is stated where it is used. *)

From Stdlib Require Import ZArith Lia Ascii String HexString.
From stdpp Require Import base tactics option list strings countable gmap.

Local Open Scope Z_scope.

(** ** Exceptions *)

(** [jwt.InvalidTokenError] and its subclasses. *)
Inductive jwt_error :=
| ExpiredSignatureError
| InvalidSignatureError
| DecodeError
| ImmatureSignatureError
| InvalidIssuedAtError
| InvalidAudienceError
| InvalidAlgorithmError.

(** The exceptions of [fastapi_csrf_protect]. *)
Inductive csrf_error :=
| MissingTokenError (message : string)
| InvalidHeaderError (message : string)
| TokenValidationError (message : string).

Inductive exn :=
| HTTPException (status_code : Z) (detail : string)
| InvalidTokenError (e : jwt_error)
| CsrfProtectError (e : csrf_error)
| KeyError (k : string)
| InvalidId (oid : string)
| TypeError (message : string)
| UnknownHashError
| ValueError (message : string).

Inductive outcome (A : Type) :=
| Returns (a : A)
| Raises (e : exn).
Arguments Returns {A} a.
Arguments Raises {A} e.

(** ** Requests, responses and the todo collection *)

(** [datetime] values are microseconds since the epoch (UTC), the
    resolution of Python's [datetime]. *)
Definition datetime := Z.

(** [timedelta(days, minutes)]. *)
Definition timedelta (days minutes : Z) : Z :=
  (days * 86400 + minutes * 60) * 1000000.

Record Cookie := mkCookie {
  ck_key : string;
  ck_value : string;
  ck_httponly : bool;
  ck_secure : bool;
  ck_samesite : string }.

Record Response := mkResponse {
  set_cookie_headers : list Cookie;
  resp_status_code : option Z }.

Record Request := mkRequest {
  cookies : gmap string string;
  headers : list (string * string) }.

(** The injected [CsrfProtect] object, one per request. *)
Record CsrfProtect := mkCsrfProtect {
  get_csrf_from_headers : list (string * string) -> csrf_error + string;
  validate_csrf : string -> option csrf_error }.

(** The fields of [TodoBody]; [todo_serializer] reads exactly these from
    a stored document. *)
Record TodoBody := mkTodoBody {
  title : string;
  description : string }.

(** The dict built by [todo_serializer]. *)
Record Todo := mkTodo {
  todo_id : string;
  todo_title : string;
  todo_description : string }.

(** ** The token payloads *)

(** The dict literal of [encode_jwt]. *)
Record payload := mkPayload {
  p_sub : string;
  p_iat : datetime;
  p_exp : datetime }.

(** The claims set carried by a token: the JSON object that [jwt.decode]
    returns.  Every claim may be absent. *)
Record claims := mkClaims {
  sub : option string;
  iat : option Z;
  exp : option Z }.

(** PyJWT turns the [datetime] of a time claim into whole seconds:
    [timegm(value.utctimetuple())] drops the microseconds. *)
Definition timegm (d : datetime) : Z := Z.div d 1000000.

(** ** The world and the monad *)

Inductive event :=
| CallGetCsrfFromHeaders
| CallValidateCsrf (csrf_token : string)
| CallCookiesGet (k : string)
| CallJwtDecode (token : string)
| CallUtcnow
| CallJwtEncode (p : payload)
| CallSetCookie (c : Cookie)
| CallFindOne (oid : N)
| CallInsertOne (oid : N)
| CallUpdateOne (oid : N)
| CallDeleteOne (oid : N).

(** [clock n] is what the [n]-th reading of the wall clock returns. *)
Record World := mkWorld {
  clock : nat -> datetime;
  ticks : nat;
  response : Response;
  collection_todo : gmap N TodoBody;
  next_oid : N;
  trace : list event }.

Definition M (A : Type) : Type := World -> outcome A * World.

#[local] Instance M_ret : MRet M := fun A a w => (Returns a, w).

#[local] Instance M_bind : MBind M := fun A B f m w =>
  match m w with
  | (Returns a, w') => f a w'
  | (Raises e, w') => (Raises e, w')
  end.

Definition raise {A} (e : exn) : M A := fun w => (Raises e, w).

(** [try: body except ...]: [handler e] is the clause that catches [e],
    if any. *)
Definition try_except {A} (body : M A) (handler : exn -> option (M A)) : M A :=
  fun w =>
    match body w with
    | (Returns a, w') => (Returns a, w')
    | (Raises e, w') =>
        match handler e with
        | Some h => h w'
        | None => (Raises e, w')
        end
    end.

Definition log (ev : event) (w : World) : World :=
  mkWorld (clock w) (ticks w) (response w) (collection_todo w) (next_oid w)
          (trace w ++ [ev]).

Definition tick (w : World) : World :=
  mkWorld (clock w) (S (ticks w)) (response w) (collection_todo w) (next_oid w)
          (trace w).

Definition with_response (r : Response) (w : World) : World :=
  mkWorld (clock w) (ticks w) r (collection_todo w) (next_oid w) (trace w).

Definition with_collection (c : gmap N TodoBody) (n : N) (w : World) : World :=
  mkWorld (clock w) (ticks w) (response w) c n (trace w).

(** Reading the wall clock. *)
Definition read_clock : M datetime :=
  fun w => (Returns (clock w (ticks w)), tick w).

(** [datetime.utcnow()]. *)
Definition utcnow : M datetime :=
  fun w => read_clock (log CallUtcnow w).

(** [request.cookies.get(key)]. *)
Definition cookies_get (request : Request) (k : string) : M (option string) :=
  fun w => (Returns (cookies request !! k), log (CallCookiesGet k) w).

(** [response.set_cookie(...)]: Starlette appends a [set-cookie] header. *)
Definition set_cookie (c : Cookie) : M unit :=
  fun w =>
    let r := response w in
    (Returns tt,
     log (CallSetCookie c)
         (with_response (mkResponse (set_cookie_headers r ++ [c]) (resp_status_code r)) w)).

(** [response.status_code = code]. *)
Definition set_status_code (code : Z) : M unit :=
  fun w =>
    let r := response w in
    (Returns tt, with_response (mkResponse (set_cookie_headers r) (Some code)) w).

(** ** [str.partition] with a one-character separator *)

Fixpoint partition (s : string) (sep : ascii) : string * string * string :=
  match s with
  | EmptyString => (EmptyString, EmptyString, EmptyString)
  | String c rest =>
      if Ascii.eqb c sep then (EmptyString, String sep EmptyString, rest)
      else
        let '(before, m, after) := partition rest sep in
        (String c before, m, after)
  end.

Fixpoint contains (s : string) (sep : ascii) : bool :=
  match s with
  | EmptyString => false
  | String c rest => Ascii.eqb c sep || contains rest sep
  end.

(** ** What is assumed of the token library *)

Definition issued_claims (s : string) (i e : Z) : claims :=
  mkClaims (Some s) (Some i) (Some e).

(** A token serialised under the key [k], carrying a subject and
    whole-second [iat] and [exp], decodes under [k] at any time from
    [iat] on: to its claims while [exp] lies ahead, to
    [ExpiredSignatureError] once the clock has reached [exp]. *)
Definition decodes_issued
    (jws_encode : claims -> string -> string)
    (jwt_decode : string -> string -> datetime -> jwt_error + claims)
    (k : string) : Prop :=
  forall s i e now,
    i * 1000000 <= now ->
    jwt_decode (jws_encode (issued_claims s i e) k) k now =
    if e * 1000000 <=? now then inl ExpiredSignatureError
    else inr (issued_claims s i e).

(** The empty string has no segments: [DecodeError]. *)
Definition rejects_empty
    (jwt_decode : string -> string -> datetime -> jwt_error + claims) : Prop :=
  forall k now, jwt_decode EmptyString k now = inl DecodeError.

(** ** A reference codec

    An executable token codec that meets the two assumptions: the token
    is the hexadecimal numeral of the code of the key and the claims, so
    that a token made under another key fails the signature check. *)

Module RefCodec.

Definition jws_encode (c : claims) (k : string) : string :=
  HexString.of_pos (encode (k, (sub c, iat c, exp c))).

Definition validate_claims (c : claims) (now : datetime) : jwt_error + claims :=
  if match iat c with Some i => now <? i * 1000000 | None => false end
  then inl ImmatureSignatureError
  else if match exp c with Some e => e * 1000000 <=? now | None => false end
  then inl ExpiredSignatureError
  else inr c.

Definition jwt_decode (token k : string) (now : datetime) : jwt_error + claims :=
  if String.eqb token EmptyString then inl DecodeError
  else
    match decode (A := string * (option string * option Z * option Z))
                 (HexString.to_pos token) with
    | Some (k', (s, i, e)) =>
        if String.eqb k' k then validate_claims (mkClaims s i e) now
        else inl InvalidSignatureError
    | None => inl DecodeError
    end.

(** A stand-in for the bcrypt check: the blob is the identifier followed
    by the password. *)
Definition bcrypt_verify (secret hash : string) : outcome bool :=
  Returns (String.eqb hash ("$2b$" +:+ secret)).

(** A [CsrfProtect] object that reads the [X-CSRF-Token] header and
    accepts one token. *)
Definition header_get (name : string) (hs : list (string * string)) : option string :=
  snd <$> List.find (fun h => String.eqb (fst h) name) hs.

Definition csrf_protect : CsrfProtect :=
  mkCsrfProtect
    (fun hs =>
       match header_get "X-CSRF-Token" hs with
       | Some t => inr t
       | None => inl (MissingTokenError "Bad headers. Expected `X-CSRF-Token` in headers")
       end)
    (fun t =>
       if String.eqb t "csrf-ok" then None
       else Some (TokenValidationError "The CSRF token is invalid.")).

Definition key : string := "s3cret".

Definition t_issue : datetime := 1700000000000000.

(** A clock that advances 100 microseconds between two readings. *)
Definition clock_from (t0 : datetime) (n : nat) : datetime := t0 + 100 * Z.of_nat n.

Definition world_at (t0 : datetime) : World :=
  mkWorld (clock_from t0) 0 (mkResponse [] None) ∅ 0 [].

(** The session token of a subject issued at a time, and a request that
    carries it with a valid CSRF header. *)
Definition token_of (s : string) (t : datetime) : string :=
  jws_encode (issued_claims s (timegm t) (timegm (t + timedelta 0 5))) key.

Definition request_with (cookie : option string) (csrf : option string) : Request :=
  mkRequest
    (match cookie with
     | Some v => {[ "access_token"%string := v ]}
     | None => ∅
     end)
    (match csrf with
     | Some t => [("X-CSRF-Token"%string, t)]
     | None => []
     end).

End RefCodec.

(** ** A reference store

    A bcrypt stand-in that agrees with [RefCodec.bcrypt_verify], and
    stores to run the user functions in. *)

Module RefStore.

Definition bcrypt_hash (salt secret : string) : outcome string :=
  Returns ("$2b$" +:+ secret).

End RefStore.

(** ** The error taxonomy, as the handlers surface it *)

Definition TokenExpired : exn := HTTPException 401 "JWT token has expired".
Definition TokenInvalid : exn := HTTPException 401 "Invalid JWT token".
Definition SessionMissing : exn :=
  HTTPException 404 "No JWT exist: may not set yet or deleted.".

(** The calls of the CSRF check, as opposed to those of the session
    logic. *)
Definition csrf_event (ev : event) : bool :=
  match ev with
  | CallGetCsrfFromHeaders | CallValidateCsrf _ => true
  | _ => false
  end.

(** A computation that leaves the [Response] object as it found it. *)
Definition preserves_response {A} (m : M A) : Prop :=
  forall w r w', m w = (r, w') -> response w' = response w.

(** ** [auth_utils.py] *)

Section Service.

(** [JWT_KEY = config('JWT_KEY')]. *)
Variable JWT_KEY : string.

(** The HS256 compact serialisation of a claims set under a key. *)
Variable jws_encode : claims -> string -> string.

(** [jwt.decode(token, key, algorithms=["HS256"])] at a reading of the
    clock: the claims, or the [InvalidTokenError] raised. *)
Variable jwt_decode : string -> string -> datetime -> jwt_error + claims.

Definition httponly : bool := true.
Definition jwt_token_cookie_key : string := "access_token".
Definition secure : bool := true.
Definition samesite : string := "none".

Definition secret_key : string := JWT_KEY.

(** [jwt.encode(payload, key, algorithm="HS256")]: the time claims are
    converted to whole seconds, then the claims set is serialised and
    signed. *)
Definition jwt_encode (p : payload) (k : string) : string :=
  jws_encode (mkClaims (Some (p_sub p)) (Some (timegm (p_iat p)))
                       (Some (timegm (p_exp p)))) k.

Definition jwt_encode_call (p : payload) (k : string) : M string :=
  fun w => (Returns (jwt_encode p k), log (CallJwtEncode p) w).

(** The call [jwt.decode(...)]; PyJWT reads the clock to check [exp].
    The reading is taken here on every call, also for a token that PyJWT
    refuses before it looks at the claims. *)
Definition jwt_decode_call (token k : string) : M claims :=
  fun w =>
    let w1 := log (CallJwtDecode token) w in
    match read_clock w1 with
    | (Returns now, w2) =>
        match jwt_decode token k now with
        | inl e => (Raises (InvalidTokenError e), w2)
        | inr c => (Returns c, w2)
        end
    | (Raises e, w2) => (Raises e, w2)
    end.

(** [payload["sub"]]. *)
Definition getitem_sub (c : claims) : M string :=
  match sub c with
  | Some s => mret s
  | None => raise (KeyError "sub")
  end.

Definition encode_jwt (email : string) : M string :=
  now ← utcnow;
  let p := mkPayload email now (now + timedelta 0 5) in
  jwt_encode_call p secret_key.

Definition decode_jwt (token : string) : M string :=
  try_except
    (p ← jwt_decode_call token secret_key;
     getitem_sub p)
    (fun e =>
       match e with
       | InvalidTokenError ExpiredSignatureError =>
           Some (raise (HTTPException 401 "JWT token has expired"))
       | InvalidTokenError _ =>
           Some (raise (HTTPException 401 "Invalid JWT token"))
       | _ => None
       end).

Definition verify_jwt (request : Request) : M string :=
  token ← cookies_get request jwt_token_cookie_key;
  match token with
  | None =>
      raise (HTTPException 404 "No JWT exist: may not set yet or deleted.")
  | Some token =>
      let '(_, _, value) := partition token " " in
      subject ← decode_jwt value;
      mret subject
  end.

Definition verify_update_jwt (request : Request) : M (string * string) :=
  subject ← verify_jwt request;
  new_token ← encode_jwt subject;
  mret (new_token, subject).

Definition get_csrf_from_headers_call (csrf_protect : CsrfProtect)
    (hs : list (string * string)) : M string :=
  fun w =>
    (match get_csrf_from_headers csrf_protect hs with
     | inl e => Raises (CsrfProtectError e)
     | inr t => Returns t
     end, log CallGetCsrfFromHeaders w).

Definition validate_csrf_call (csrf_protect : CsrfProtect) (csrf_token : string) : M unit :=
  fun w =>
    (match validate_csrf csrf_protect csrf_token with
     | Some e => Raises (CsrfProtectError e)
     | None => Returns tt
     end, log (CallValidateCsrf csrf_token) w).

Definition verify_csrf_update_jwt (request : Request) (csrf_protect : CsrfProtect)
    (hs : list (string * string)) : M string :=
  csrf_token ← get_csrf_from_headers_call csrf_protect hs;
  _ ← validate_csrf_call csrf_protect csrf_token;
  '(new_token, _) ← verify_update_jwt request;
  mret new_token.

Section PasswordContext.

(** [bcrypt.verify(secret, hash)] on a hash that carries a bcrypt
    identifier. *)
Variable bcrypt_verify : string -> string -> outcome bool.

(** [CryptContext(schemes=["bcrypt"]).verify(secret, hash)]: passlib first
    identifies the scheme of the hash by its identifier and raises
    [UnknownHashError] ("hash could not be identified") when no configured
    scheme claims it. *)
Definition bcrypt_idents : list string :=
  ["$2$"; "$2a$"; "$2x$"; "$2y$"; "$2b$"]%string.

Definition bcrypt_identify (hash : string) : bool :=
  existsb (fun ident => String.prefix ident hash) bcrypt_idents.

Definition pwd_ctx_verify (secret hash : string) : M bool :=
  fun w =>
    (if bcrypt_identify hash then bcrypt_verify secret hash
     else Raises UnknownHashError, w).

Definition verify_password (plain_pw hashed_pw : string) : M bool :=
  pwd_ctx_verify plain_pw hashed_pw.

End PasswordContext.

(** ** [database.py] *)

(** [dict | bool]. *)
Inductive dict_or_bool :=
| IsDict (d : Todo)
| IsBool (b : bool).

Definition hex_nibble (n : N) : ascii :=
  match n with
  | 0 => "0" | 1 => "1" | 2 => "2" | 3 => "3" | 4 => "4" | 5 => "5"
  | 6 => "6" | 7 => "7" | 8 => "8" | 9 => "9" | 10 => "a" | 11 => "b"
  | 12 => "c" | 13 => "d" | 14 => "e" | _ => "f"
  end%N%char.

Fixpoint hex_fixed (digits : nat) (n : N) (acc : string) : string :=
  match digits with
  | O => acc
  | S d => hex_fixed d (N.div n 16) (String (hex_nibble (N.modulo n 16)) acc)
  end.

(** [str(oid)]: 24 lower-case hexadecimal digits. *)
Definition str_of_oid (oid : N) : string := hex_fixed 24 oid EmptyString.

Fixpoint hex_value (s : string) (acc : N) : option N :=
  match s with
  | EmptyString => Some acc
  | String c rest =>
      match HexString.ascii_to_digit c with
      | Some d => hex_value rest (acc * 16 + d)%N
      | None => None
      end
  end.

(** [ObjectId(id)] of a string: 24 hexadecimal digits, or [InvalidId].
    bson reads the digits with [bytes.fromhex], which skips ASCII white
    space between two bytes: a string of 24 characters made of digit
    pairs and white space is accepted there as an id of fewer than 12
    bytes, and refused here.  What a store answers to such an id is not
    modelled: where a statement names ids that are refused, it names ids
    that bson refuses. *)
Definition ObjectId (id : string) : M N :=
  if Nat.eqb (String.length id) 24 then
    match hex_value id 0%N with
    | Some oid => mret oid
    | None => raise (InvalidId id)
    end
  else raise (InvalidId id).

Definition todo_serializer (todo : N * TodoBody) : Todo :=
  mkTodo (str_of_oid (fst todo)) (title (snd todo)) (description (snd todo)).

(** The four collection calls, on the collection as a map from [_id] to
    the other fields of the document. *)
Definition insert_one (data : TodoBody) : M N :=
  fun w =>
    let oid := next_oid w in
    (Returns oid,
     log (CallInsertOne oid)
         (with_collection (<[oid := data]> (collection_todo w)) (N.succ oid) w)).

Definition find_one (oid : N) : M (option (N * TodoBody)) :=
  fun w =>
    (Returns (match collection_todo w !! oid with
              | Some d => Some (oid, d)
              | None => None
              end),
     log (CallFindOne oid) w).

(** [update_one({"_id": oid}, {"$set": data})]; returns [matched_count]. *)
Definition update_one (oid : N) (data : TodoBody) : M Z :=
  fun w =>
    match collection_todo w !! oid with
    | Some _ =>
        (Returns 1,
         log (CallUpdateOne oid)
             (with_collection (<[oid := data]> (collection_todo w)) (next_oid w) w))
    | None => (Returns 0, log (CallUpdateOne oid) w)
    end.

(** [delete_one({"_id": oid})]; returns [deleted_count]. *)
Definition delete_one (oid : N) : M Z :=
  fun w =>
    match collection_todo w !! oid with
    | Some _ =>
        (Returns 1,
         log (CallDeleteOne oid)
             (with_collection (delete oid (collection_todo w)) (next_oid w) w))
    | None => (Returns 0, log (CallDeleteOne oid) w)
    end.

Definition db_create_todo (data : TodoBody) : M dict_or_bool :=
  inserted_id ← insert_one data;
  new_todo ← find_one inserted_id;
  match new_todo with
  | Some t => mret (IsDict (todo_serializer t))
  | None => mret (IsBool false)
  end.

Definition db_update_todo (id : string) (data : TodoBody) : M dict_or_bool :=
  oid ← ObjectId id;
  todo ← find_one oid;
  match todo with
  | Some _ =>
      oid' ← ObjectId id;
      matched_count ← update_one oid' data;
      if 0 <? matched_count then
        oid'' ← ObjectId id;
        new_todo ← find_one oid'';
        match new_todo with
        | Some t => mret (IsDict (todo_serializer t))
        | None => raise (TypeError "'NoneType' object is not subscriptable")
        end
      else mret (IsBool false)
  | None => mret (IsBool false)
  end.

Definition db_delete_todo (id : string) : M bool :=
  oid ← ObjectId id;
  todo ← find_one oid;
  match todo with
  | Some _ =>
      oid' ← ObjectId id;
      deleted_count ← delete_one oid';
      if 0 <? deleted_count then mret true else mret false
  | None => mret false
  end.

(** ** [routers/route_auth.py] and [routers/route_todo.py] *)

Definition HTTP_201_CREATED : Z := 201.

(** The cookie written by every handler that rotates the session. *)
Definition bearer_cookie (new_token : string) : Cookie :=
  mkCookie jwt_token_cookie_key ("Bearer " +:+ new_token) httponly secure samesite.

Definition get_user_refresh_jwt (request : Request) : M string :=
  '(new_token, subject) ← verify_update_jwt request;
  _ ← set_cookie (bearer_cookie new_token);
  mret subject.

Definition create_todo (request : Request) (data : TodoBody)
    (csrf_protect : CsrfProtect) : M Todo :=
  new_token ← verify_csrf_update_jwt request csrf_protect (headers request);
  res ← db_create_todo data;
  _ ← set_cookie (bearer_cookie new_token);
  match res with
  | IsDict d =>
      _ ← set_status_code HTTP_201_CREATED;
      mret d
  | IsBool _ => raise (HTTPException 404 "Create task failed.")
  end.

Definition update_todo (request : Request) (id : string) (data : TodoBody)
    (csrf_protect : CsrfProtect) : M Todo :=
  new_token ← verify_csrf_update_jwt request csrf_protect (headers request);
  res ← db_update_todo id data;
  _ ← set_cookie (bearer_cookie new_token);
  match res with
  | IsDict d => mret d
  | IsBool _ => raise (HTTPException 404 "Update task failed.")
  end.

Definition delete_todo (request : Request) (id : string)
    (csrf_protect : CsrfProtect) : M string :=
  new_token ← verify_csrf_update_jwt request csrf_protect (headers request);
  res ← db_delete_todo id;
  _ ← set_cookie (bearer_cookie new_token);
  if (res : bool) then mret "Successfully deleted."%string
  else raise (HTTPException 404 "Delete task failed.").



(** ** The read side of [database.py] and of [routers/route_todo.py] *)

(** The [_id] that a string denotes, when it denotes one: what
    [ObjectId] computes before it returns or raises. *)
Definition parse_oid (id : string) : option N :=
  if Nat.eqb (String.length id) 24 then hex_value id 0%N else None.

(** [collection_todo.find().to_list(length=n)]: the documents of the
    collection, at most [n] of them.  Which order the store returns them
    in is not modelled: the list is in the order of the map. *)
Definition find_to_list (n : nat) : M (list (N * TodoBody)) :=
  fun w => (Returns (take n (map_to_list (collection_todo w))), w).

Definition db_get_todos : M (list Todo) :=
  docs ← find_to_list 100;
  mret (todo_serializer <$> docs).

Definition db_get_single_todo (id : string) : M dict_or_bool :=
  oid ← ObjectId id;
  todo ← find_one oid;
  match todo with
  | Some t => mret (IsDict (todo_serializer t))
  | None => mret (IsBool false)
  end.

Definition get_todos (request : Request) : M (list Todo) :=
  _ ← verify_jwt request;
  res ← db_get_todos;
  mret res.

Definition get_single_todo (request : Request) (id : string) : M Todo :=
  '(new_token, _) ← verify_update_jwt request;
  res ← db_get_single_todo id;
  _ ← set_cookie (bearer_cookie new_token);
  match res with
  | IsDict d => mret d
  | IsBool _ =>
      raise (HTTPException 404 ("Task of ID:" +:+ id +:+ " doesn't exist."))
  end.

(** The calls a session check may make. *)
Definition session_read_event (ev : event) : bool :=
  match ev with
  | CallCookiesGet _ | CallJwtDecode _ => true
  | _ => false
  end.

(** The calls that rotate a session: reading the clock for a new
    token, [jwt.encode] and [set_cookie]. *)
Definition rotation_event (ev : event) : bool :=
  match ev with
  | CallUtcnow | CallJwtEncode _ | CallSetCookie _ => true
  | _ => false
  end.

(** The characters that [bytes.fromhex], by which [ObjectId] reads a
    string, skips (ASCII white space) and those it refuses: every
    character that is neither a hexadecimal digit nor white space. *)
Definition is_ascii_space (c : ascii) : bool :=
  match N_of_ascii c with
  | 9 | 10 | 11 | 12 | 13 | 32 => true
  | _ => false
  end%N.

Definition fromhex_refuses (c : ascii) : bool :=
  match HexString.ascii_to_digit c with
  | Some _ => false
  | None => negb (is_ascii_space c)
  end.

Fixpoint has (P : ascii -> bool) (s : string) : bool :=
  match s with
  | EmptyString => false
  | String c rest => P c || has P rest
  end.

(** Python's [len] of a [str]: the number of its code points.  A string
    here is the UTF-8 encoding of the Python string, in which each code
    point has exactly one byte that is not a continuation byte
    [10xxxxxx]. *)
Definition is_continuation_byte (c : ascii) : bool :=
  match c with
  | Ascii _ _ _ _ _ _ b6 b7 => b7 && negb b6
  end.

Fixpoint len (s : string) : nat :=
  match s with
  | EmptyString => O
  | String c rest =>
      if is_continuation_byte c then len rest else S (len rest)
  end.

(** ** Users: the rest of [database.py] and of [routers/route_auth.py] *)

(** Modelled from the spec: [schemas.py] is not among the sources.  A
    [UserBody] carries the subject (an email string) and the password
    string; [jsonable_encoder] turns it into a dict with exactly these
    two keys, so [data.get] returns the field. *)
Record UserBody := mkUserBody {
  ub_email : string;
  ub_password : string }.

(** A document of [collection_user]. *)
Record UserDoc := mkUserDoc {
  user_id : N;
  user_email : string;
  user_password : string }.

(** The dict built by [user_serializer]. *)
Record UserInfo := mkUserInfo {
  info_id : string;
  info_email : string }.

(** The state of the process: the world of the request, the user
    collection in insertion order, and the source of the salts that
    [pwd_ctx.hash] draws. *)
Record Store := mkStore {
  world : World;
  collection_user : list UserDoc;
  salts : nat -> string;
  salts_drawn : nat }.

Definition MS (A : Type) : Type := Store -> outcome A * Store.

#[local] Instance MS_ret : MRet MS := fun A a st => (Returns a, st).

#[local] Instance MS_bind : MBind MS := fun A B f m st =>
  match m st with
  | (Returns a, st') => f a st'
  | (Raises e, st') => (Raises e, st')
  end.

Definition raiseS {A} (e : exn) : MS A := fun st => (Raises e, st).

(** A computation on the world, run in the store. *)
Definition lift {A} (m : M A) : MS A :=
  fun st =>
    match m (world st) with
    | (r, w') => (r, mkStore w' (collection_user st) (salts st) (salts_drawn st))
    end.

Definition user_serializer (user : UserDoc) : UserInfo :=
  mkUserInfo (str_of_oid (user_id user)) (user_email user).

(** [collection_user.find_one({"email": email})]: the first match. *)
Definition user_find_one_by_email (e : string) : MS (option UserDoc) :=
  fun st =>
    (Returns (List.find (fun u => String.eqb (user_email u) e) (collection_user st)),
     st).

(** [collection_user.find_one({"_id": oid})]. *)
Definition user_find_one_by_id (oid : N) : MS (option UserDoc) :=
  fun st =>
    (Returns (List.find (fun u => N.eqb (user_id u) oid) (collection_user st)), st).

(** [collection_user.insert_one({"email": e, "password": h})]. *)
Definition user_insert_one (e h : string) : MS N :=
  fun st =>
    let w := world st in
    let oid := next_oid w in
    (Returns oid,
     mkStore (with_collection (collection_todo w) (N.succ oid) w)
             (collection_user st ++ [mkUserDoc oid e h])
             (salts st) (salts_drawn st)).

Section Users.

Variable bcrypt_verify : string -> string -> outcome bool.

(** [bcrypt.hash] of a password under a salt: the blob, or the error
    passlib raises for a password it refuses. *)
Variable bcrypt_hash : string -> string -> outcome string.

(** [pwd_ctx.hash(password)] with a fresh salt. *)
Definition generate_hashed_pw (password : string) : MS string :=
  fun st =>
    (bcrypt_hash (salts st (salts_drawn st)) password,
     mkStore (world st) (collection_user st) (salts st) (S (salts_drawn st))).

(** [db_signup]: [data.get] on the dict of a [UserBody] returns the
    field, so that [password is None] is never true there and the length
    test decides. *)
Definition db_signup (data : UserBody) : MS UserInfo :=
  let email := ub_email data in
  let password := ub_password data in
  overlap_user ← user_find_one_by_email email;
  match overlap_user with
  | Some _ => raiseS (HTTPException 401 "User already exists")
  | None =>
      if Nat.ltb (len password) 6 then
        raiseS (HTTPException 401 "Password is too short")
      else
        hashed_password ← generate_hashed_pw password;
        inserted_id ← user_insert_one email hashed_password;
        new_user ← user_find_one_by_id inserted_id;
        match new_user with
        | Some u => mret (user_serializer u)
        | None => raiseS (TypeError "'NoneType' object is not subscriptable")
        end
  end.

Definition db_login (data : UserBody) : MS string :=
  let email := ub_email data in
  let password := ub_password data in
  user ← user_find_one_by_email email;
  match user with
  | None => raiseS (HTTPException 401 "Invalid credentials")
  | Some u =>
      ok ← lift (verify_password bcrypt_verify password (user_password u));
      if negb ok then raiseS (HTTPException 401 "Invalid credentials")
      else
        token ← lift (encode_jwt (user_email u));
        mret token
  end.

Definition signup (request : Request) (user : UserBody)
    (csrf_protect : CsrfProtect) : MS UserInfo :=
  csrf_token ← lift (get_csrf_from_headers_call csrf_protect (headers request));
  _ ← lift (validate_csrf_call csrf_protect csrf_token);
  new_user ← db_signup user;
  _ ← lift (set_status_code HTTP_201_CREATED);
  mret new_user.

Definition login (request : Request) (user : UserBody)
    (csrf_protect : CsrfProtect) : MS string :=
  csrf_token ← lift (get_csrf_from_headers_call csrf_protect (headers request));
  _ ← lift (validate_csrf_call csrf_protect csrf_token);
  token ← db_login user;
  _ ← lift (set_cookie (bearer_cookie token));
  mret "Logged in successfully."%string.

End Users.

(** A computation that leaves a component of the world as it found it,
    and one that logs only calls of a given kind. *)
Definition keeps {S A} (proj : World -> S) (m : M A) : Prop :=
  forall w r w', m w = (r, w') -> proj w' = proj w.

Definition appends_only {A} (P : event -> bool) (m : M A) : Prop :=
  forall w r w', m w = (r, w') ->
    exists evs, trace w' = trace w ++ evs /\ forallb P evs = true.

(** The todo collection together with the id generator. *)
Definition todo_store (w : World) : gmap N TodoBody * N :=
  (collection_todo w, next_oid w).

(** The calls to the todo collection. *)
Definition db_event (ev : event) : bool :=
  match ev with
  | CallFindOne _ | CallInsertOne _ | CallUpdateOne _ | CallDeleteOne _ => true
  | _ => false
  end.

(** A reference world that holds todos. *)
Definition world_with (t0 : datetime) (todos : gmap N TodoBody) (next : N) : World :=
  mkWorld (RefCodec.clock_from t0) 0 (mkResponse [] None) todos next [].

(** A store on a reference world, for running the user functions. *)
Definition store_at (t0 : datetime) (users : list UserDoc) : Store :=
  mkStore (RefCodec.world_at t0) users (fun _ => "salt"%string) 0.

(** What is assumed of passlib: a blob that [bcrypt.hash] returns for a
    password carries a bcrypt identifier and verifies against that
    password. *)
Definition hash_verifies
    (bcrypt_verify : string -> string -> outcome bool)
    (bcrypt_hash : string -> string -> outcome string) : Prop :=
  forall salt p h,
    bcrypt_hash salt p = Returns h ->
    bcrypt_identify h = true /\ bcrypt_verify p h = Returns true.

(** ** What the framework sends

    FastAPI gives the handler a [Response] object of its own for each
    request.  When the handler returns, the status code and the headers
    set on that object go into the reply.  When the handler raises, the
    reply is built from the exception alone and the object is dropped:
    the reply to an [HTTPException] has its status code and no cookie.
    The status of the reply to another exception is left to the handlers
    the application registers, which are not in the sources. *)
Record Reply := mkReply {
  reply_status : option Z;
  reply_set_cookie : list Cookie }.

Definition fresh_response (w : World) : World :=
  with_response (mkResponse [] None) w.

Definition reply_to {A} (r : outcome A * World) : Reply :=
  match r with
  | (Returns _, w') =>
      mkReply (Some (default 200 (resp_status_code (response w'))))
              (set_cookie_headers (response w'))
  | (Raises (HTTPException status_code _), _) => mkReply (Some status_code) []
  | (Raises _, _) => mkReply None []
  end.

Definition reply {A} (handler : M A) (w : World) : Reply :=
  reply_to (handler (fresh_response w)).


(** * Properties *)

(** ** The monad *)

Lemma bind_unfold {A B} (m : M A) (f : A -> M B) (w : World) :
  (m ≫= f) w =
  match m w with
  | (Returns a, w') => f a w'
  | (Raises e, w') => (Raises e, w')
  end.
Proof. reflexivity. Qed.

Lemma bind_ret_r {A} (m : M A) (w : World) : (m ≫= mret) w = m w.
Proof. rewrite bind_unfold. destruct (m w) as [[a|e] w']; reflexivity. Qed.

Lemma run_eta {A} (x : outcome A * World) (a : A) :
  fst x = Returns a -> x = (Returns a, snd x).
Proof. destruct x as [r w]. simpl. intros ->. reflexivity. Qed.

Lemma pr_ret {A} (a : A) : preserves_response (mret a : M A).
Proof. intros w r w' H. inversion H. reflexivity. Qed.

Lemma pr_raise {A} (e : exn) : preserves_response (raise e : M A).
Proof. intros w r w' H. inversion H. reflexivity. Qed.

Lemma pr_bind {A B} (m : M A) (f : A -> M B) :
  preserves_response m -> (forall a, preserves_response (f a)) ->
  preserves_response (m ≫= f).
Proof.
  intros Hm Hf w r w' H. rewrite bind_unfold in H.
  destruct (m w) as [[a|e] w1] eqn:Em.
  - rewrite (Hf a _ _ _ H). exact (Hm _ _ _ Em).
  - inversion H; subst. exact (Hm _ _ _ Em).
Qed.

Lemma pr_try_except {A} (body : M A) (handler : exn -> option (M A)) :
  preserves_response body ->
  (forall e h, handler e = Some h -> preserves_response h) ->
  preserves_response (try_except body handler).
Proof.
  intros Hb Hh w r w' H. unfold try_except in H.
  destruct (body w) as [[a|e] w1] eqn:Eb.
  - inversion H; subst. exact (Hb _ _ _ Eb).
  - destruct (handler e) as [h|] eqn:Eh.
    + rewrite (Hh e h Eh _ _ _ H). exact (Hb _ _ _ Eb).
    + inversion H; subst. exact (Hb _ _ _ Eb).
Qed.

(** ** [str.partition] *)

Lemma partition_no_sep (s : string) (sep : ascii) :
  contains s sep = false -> partition s sep = (s, EmptyString, EmptyString).
Proof.
  induction s as [|c s IH]; simpl; [reflexivity|].
  destruct (Ascii.eqb c sep); simpl; [discriminate|].
  intros H. rewrite (IH H). reflexivity.
Qed.

Lemma partition_first_sep (before after : string) (sep : ascii) :
  contains before sep = false ->
  partition (before +:+ String sep after) sep = (before, String sep EmptyString, after).
Proof.
  induction before as [|c s IH]; simpl.
  - intros _. rewrite Ascii.eqb_refl. reflexivity.
  - destruct (Ascii.eqb c sep); simpl; [discriminate|].
    intros H. rewrite (IH H). reflexivity.
Qed.

Lemma partition_parts (s : string) (sep : ascii) :
  contains s sep = true ->
  exists before after,
    partition s sep = (before, String sep EmptyString, after)
    /\ s = before +:+ String sep after /\ contains before sep = false.
Proof.
  induction s as [|c s IH]; simpl; [discriminate|].
  destruct (Ascii.eqb c sep) eqn:E; simpl.
  - intros _. apply Ascii.eqb_eq in E. subst c.
    exists EmptyString, s. auto.
  - intros H. destruct (IH H) as (b & a & Hp & Hs & Hb).
    exists (String c b), a. rewrite Hp. simpl. rewrite E, Hb.
    split; [reflexivity|]. split; [|reflexivity].
    change (String c b +:+ String sep a) with (String c (b +:+ String sep a)).
    congruence.
Qed.

(** ** Time *)

Lemma timegm_five_minutes (now : datetime) :
  timegm (now + timedelta 0 5) = timegm now + 300.
Proof.
  unfold timegm, timedelta.
  replace (now + (0 * 86400 + 5 * 60) * 1000000) with (now + 300 * 1000000) by lia.
  apply Z.div_add. lia.
Qed.

Lemma timegm_le (now : datetime) : timegm now * 1000000 <= now.
Proof. unfold timegm. pose proof (Z.mul_div_le now 1000000). lia. Qed.

Lemma timegm_lt (now : datetime) : now < (timegm now + 1) * 1000000.
Proof.
  unfold timegm. pose proof (Z.mod_pos_bound now 1000000).
  pose proof (Z.div_mod now 1000000). lia.
Qed.

(** ** What [encode_jwt] and [decode_jwt] compute *)

Lemma encode_jwt_spec (email : string) (w : World) :
  let now := clock w (ticks w) in
  let p := mkPayload email now (now + timedelta 0 5) in
  encode_jwt email w =
  (Returns (jwt_encode p secret_key), log (CallJwtEncode p) (tick (log CallUtcnow w))).
Proof. reflexivity. Qed.

Lemma encode_jwt_claims (email : string) (w : World) :
  let now := clock w (ticks w) in
  fst (encode_jwt email w) =
  Returns (jws_encode (issued_claims email (timegm now) (timegm now + 300)) JWT_KEY).
Proof.
  cbv zeta. rewrite encode_jwt_spec. unfold jwt_encode, issued_claims, secret_key.
  simpl. rewrite timegm_five_minutes. reflexivity.
Qed.

Lemma decode_jwt_spec (token : string) (w : World) :
  decode_jwt token w =
  (match jwt_decode token JWT_KEY (clock w (ticks w)) with
   | inl ExpiredSignatureError => Raises TokenExpired
   | inl _ => Raises TokenInvalid
   | inr c =>
       match sub c with
       | Some s => Returns s
       | None => Raises (KeyError "sub")
       end
   end, tick (log (CallJwtDecode token) w)).
Proof.
  unfold decode_jwt, try_except. rewrite bind_unfold.
  unfold jwt_decode_call, read_clock, secret_key. simpl.
  destruct (jwt_decode token JWT_KEY (clock w (ticks w))) as [[]|c]; try reflexivity.
  unfold getitem_sub. destruct (sub c); reflexivity.
Qed.

Lemma verify_jwt_spec (request : Request) (w : World) :
  verify_jwt request w =
  match cookies request !! jwt_token_cookie_key with
  | None => (Raises SessionMissing, log (CallCookiesGet jwt_token_cookie_key) w)
  | Some token =>
      decode_jwt (snd (partition token " ")) (log (CallCookiesGet jwt_token_cookie_key) w)
  end.
Proof.
  unfold verify_jwt. rewrite bind_unfold. unfold cookies_get.
  destruct (cookies request !! jwt_token_cookie_key) as [token|]; [|reflexivity].
  destruct (partition token " ") as [[b m] a]. simpl. apply bind_ret_r.
Qed.

Hypothesis jwt_decodes_issued : decodes_issued jws_encode jwt_decode JWT_KEY.
Hypothesis jwt_rejects_empty : rejects_empty jwt_decode.

Lemma decode_issued_token (s : string) (i : Z) (w : World) :
  i * 1000000 <= clock w (ticks w) ->
  decode_jwt (jws_encode (issued_claims s i (i + 300)) JWT_KEY) w =
  (if (i + 300) * 1000000 <=? clock w (ticks w) then Raises TokenExpired
   else Returns s,
   tick (log (CallJwtDecode (jws_encode (issued_claims s i (i + 300)) JWT_KEY)) w)).
Proof.
  intros Hi. rewrite decode_jwt_spec, (jwt_decodes_issued _ _ _ _ Hi).
  destruct ((i + 300) * 1000000 <=? clock w (ticks w)); reflexivity.
Qed.

Lemma verify_jwt_returns (request : Request) (w w1 : World) (subject : string) :
  verify_jwt request w = (Returns subject, w1) ->
  clock w1 = clock w /\ ticks w1 = S (ticks w) /\ response w1 = response w
  /\ collection_todo w1 = collection_todo w /\ next_oid w1 = next_oid w.
Proof.
  rewrite verify_jwt_spec.
  destruct (cookies request !! jwt_token_cookie_key) as [token|]; [|discriminate].
  rewrite decode_jwt_spec. intros H. inversion H; subst. simpl. auto.
Qed.

(** ** Token round trip *)

(** C2: a token issued by [encode_jwt] for a subject decodes to that
    subject at every reading of the clock from the issue time up to the
    expiry carried by the token. *)
Theorem decode_encode_roundtrip (s : string) (w w' : World) :
  clock w (ticks w) <= clock w' (ticks w') ->
  clock w' (ticks w') < timegm (clock w (ticks w) + timedelta 0 5) * 1000000 ->
  exists token w1 w2,
    encode_jwt s w = (Returns token, w1)
    /\ decode_jwt token w' = (Returns s, w2).
Proof.
  intros Hle Hlt. rewrite timegm_five_minutes in Hlt.
  pose proof (encode_jwt_claims s w) as He. cbv zeta in He.
  destruct (encode_jwt s w) as [r w1] eqn:E. simpl in He. subst r.
  eexists _, w1, _. split; [reflexivity|].
  rewrite decode_issued_token.
  - destruct (Z.leb_spec ((timegm (clock w (ticks w)) + 300) * 1000000)
                         (clock w' (ticks w'))); [lia|reflexivity].
  - pose proof (timegm_le (clock w (ticks w))). lia.
Qed.

(** ** Expired against invalid *)


(** A token that the library accepts but that carries no [sub] is not
    turned into a 401: the [KeyError] of the subscript escapes the
    [try]. *)
Remark decode_jwt_without_sub (token : string) (w : World) (c : claims) :
  jwt_decode token JWT_KEY (clock w (ticks w)) = inr c ->
  sub c = None ->
  fst (decode_jwt token w) = Raises (KeyError "sub").
Proof. intros H Hs. rewrite decode_jwt_spec, H, Hs. reflexivity. Qed.

(** ** Session lookup *)

(** C5: [verify_jwt] raises 404 "No JWT exist" exactly when the request
    has no session cookie, an error that is neither of the two token
    errors; when the cookie is there, it decodes what [partition] leaves
    after the first space of the cookie value. *)
Theorem verify_jwt_session_missing (request : Request) (w : World) :
  (cookies request !! jwt_token_cookie_key = None
   <-> fst (verify_jwt request w) = Raises SessionMissing)
  /\ SessionMissing <> TokenExpired /\ SessionMissing <> TokenInvalid
  /\ (forall cookie,
         cookies request !! jwt_token_cookie_key = Some cookie ->
         verify_jwt request w =
         decode_jwt (snd (partition cookie " "))
                    (log (CallCookiesGet jwt_token_cookie_key) w)
         /\ (contains cookie " " = true ->
             exists before after,
               cookie = before +:+ " " +:+ after
               /\ contains before " " = false
               /\ snd (partition cookie " ") = after)).
Proof.
  split; [|split; [discriminate|split; [discriminate|]]].
  - rewrite verify_jwt_spec.
    destruct (cookies request !! jwt_token_cookie_key) as [cookie|]; [|tauto].
    split; [discriminate|]. rewrite decode_jwt_spec. simpl.
    destruct (jwt_decode _ _ _) as [[]|c]; try discriminate.
    destruct (sub c); discriminate.
  - intros cookie H. split.
    + rewrite verify_jwt_spec, H. reflexivity.
    + intros Hc. destruct (partition_parts _ _ Hc) as (b & a & Hp & Hs & Hb).
      exists b, a. rewrite Hp. auto.
Qed.

(** C10: the prefix before the first space of the cookie value is never
    looked at: whatever it is, the text after the first space is what is
    decoded; a cookie value without a space has the empty string decoded,
    and the request fails with 401 "Invalid JWT token", not with the 404
    of a missing session. *)
Theorem verify_jwt_any_prefix (request : Request) (w : World) (cookie : string) :
  cookies request !! jwt_token_cookie_key = Some cookie ->
  (forall before after,
      contains before " " = false ->
      cookie = before +:+ " " +:+ after ->
      verify_jwt request w =
      decode_jwt after (log (CallCookiesGet jwt_token_cookie_key) w))
  /\ (contains cookie " " = false ->
      verify_jwt request w =
      decode_jwt EmptyString (log (CallCookiesGet jwt_token_cookie_key) w)
      /\ fst (verify_jwt request w) = Raises TokenInvalid
      /\ fst (verify_jwt request w) <> Raises SessionMissing).
Proof.
  intros H. split.
  - intros b a Hb ->. rewrite verify_jwt_spec, H.
    change (b +:+ " " +:+ a) with (b +:+ String " " a).
    rewrite (partition_first_sep b a " " Hb). reflexivity.
  - intros Hc. rewrite verify_jwt_spec, H, (partition_no_sep _ _ Hc). simpl.
    split; [reflexivity|].
    rewrite decode_jwt_spec, jwt_rejects_empty. simpl.
    split; [reflexivity|discriminate].
Qed.

(** ** Sliding expiry *)

(** C6: the token of [encode_jwt] carries the reading of the clock taken
    at the call as [iat] and that reading plus five minutes as [exp]; the
    token that [verify_update_jwt] returns is the token of [encode_jwt]
    for the verified subject at the reading taken after verification, so
    its expiry depends on the moment of rotation and on nothing in the
    token presented. *)
Theorem rotation_expiry_from_now (request : Request) (w w1 : World) (subject : string) :
  verify_jwt request w = (Returns subject, w1) ->
  let now := clock w (S (ticks w)) in
  (forall email w0,
      let now0 := clock w0 (ticks w0) in
      fst (encode_jwt email w0) =
      Returns (jwt_encode (mkPayload email now0 (now0 + timedelta 0 5)) secret_key))
  /\ timedelta 0 5 = 5 * 60 * 1000000
  /\ fst (verify_update_jwt request w) =
     Returns (jwt_encode (mkPayload subject now (now + timedelta 0 5)) secret_key,
              subject)
  /\ fst (verify_update_jwt request w) =
     Returns (jws_encode (issued_claims subject (timegm now) (timegm now + 300)) JWT_KEY,
              subject).
Proof.
  intros Hv now. split; [intros; reflexivity|]. split; [reflexivity|].
  destruct (verify_jwt_returns _ _ _ _ Hv) as (Hc & Ht & _).
  assert (fst (verify_update_jwt request w) =
          Returns (jwt_encode (mkPayload subject now (now + timedelta 0 5)) secret_key,
                   subject)) as E.
  { unfold verify_update_jwt. rewrite bind_unfold, Hv, bind_unfold, encode_jwt_spec.
    cbv zeta. rewrite Hc, Ht. reflexivity. }
  split; [exact E|]. rewrite E. unfold jwt_encode, issued_claims, secret_key. simpl.
  rewrite timegm_five_minutes. reflexivity.
Qed.

(** ** The user endpoint without a session *)

(** C9: on a request without session cookie, [get_user_refresh_jwt]
    raises 404 "No JWT exist" and the response object is as it was: no
    cookie was set and the only call made is the cookie lookup. *)
Theorem get_user_no_cookie (request : Request) (w : World) :
  cookies request !! jwt_token_cookie_key = None ->
  exists w',
    get_user_refresh_jwt request w = (Raises SessionMissing, w')
    /\ response w' = response w
    /\ trace w' = trace w ++ [CallCookiesGet jwt_token_cookie_key].
Proof.
  intros H. eexists. split.
  - unfold get_user_refresh_jwt, verify_update_jwt.
    rewrite !bind_unfold, verify_jwt_spec, H. reflexivity.
  - split; reflexivity.
Qed.

(** ** CSRF before session *)

(** C4: when the CSRF header is missing or does not validate,
    [verify_csrf_update_jwt] raises the CSRF error, whatever the request
    carries: the clock was not read, the response is as it was, and the
    only calls made are those of the CSRF check (no cookie lookup, no
    [jwt.decode], no [jwt.encode]). *)
Theorem csrf_checked_before_session (request : Request) (csrf_protect : CsrfProtect)
    (hs : list (string * string)) (w : World) (e : csrf_error) :
  (get_csrf_from_headers csrf_protect hs = inl e
   \/ exists t, get_csrf_from_headers csrf_protect hs = inr t
                /\ validate_csrf csrf_protect t = Some e) ->
  exists w',
    verify_csrf_update_jwt request csrf_protect hs w = (Raises (CsrfProtectError e), w')
    /\ ticks w' = ticks w /\ response w' = response w
    /\ exists evs, trace w' = trace w ++ evs /\ forallb csrf_event evs = true.
Proof.
  intros [H | (t & H & Hv)]; unfold verify_csrf_update_jwt;
    rewrite bind_unfold; unfold get_csrf_from_headers_call; rewrite H.
  - eexists. split; [reflexivity|]. repeat split.
    exists [CallGetCsrfFromHeaders]. split; reflexivity.
  - rewrite bind_unfold. unfold validate_csrf_call. rewrite Hv.
    eexists. split; [reflexivity|]. repeat split.
    exists [CallGetCsrfFromHeaders; CallValidateCsrf t]. simpl.
    rewrite <- app_assoc. split; reflexivity.
Qed.

(** ** Rotation *)

Lemma jws_encode_issued_inj (s1 s2 : string) (i1 i2 : Z) :
  jws_encode (issued_claims s1 i1 (i1 + 300)) JWT_KEY =
  jws_encode (issued_claims s2 i2 (i2 + 300)) JWT_KEY ->
  s1 = s2 /\ i1 = i2.
Proof.
  intros E. set (now := Z.max i1 i2 * 1000000).
  assert (i1 * 1000000 <= now) as H1 by (unfold now; lia).
  assert (i2 * 1000000 <= now) as H2 by (unfold now; lia).
  pose proof (jwt_decodes_issued s1 i1 (i1 + 300) now H1) as D1.
  pose proof (jwt_decodes_issued s2 i2 (i2 + 300) now H2) as D2.
  rewrite E, D2 in D1. clear D2 E.
  destruct (Z.leb_spec ((i1 + 300) * 1000000) now);
    destruct (Z.leb_spec ((i2 + 300) * 1000000) now);
    try discriminate.
  - unfold now in *. lia.
  - unfold issued_claims in D1. inversion D1. auto.
Qed.

(** C7, as the code has it: for a token [t1] of [encode_jwt] presented in
    the session cookie before its expiry, [verify_update_jwt] returns the
    subject of [t1] and a token [t2] that decodes to the same subject;
    [t2] is [t1] itself exactly when the rotation reads the clock in the
    whole second in which [t1] was issued, and differs from [t1]
    otherwise. *)
Theorem rotation_same_subject (s : string) (w0 w0' w : World) (t1 : string)
    (request : Request) :
  encode_jwt s w0 = (Returns t1, w0') ->
  cookies request !! jwt_token_cookie_key = Some ("Bearer " +:+ t1) ->
  clock w0 (ticks w0) <= clock w (ticks w) ->
  clock w (ticks w) < timegm (clock w0 (ticks w0) + timedelta 0 5) * 1000000 ->
  exists t2 w2,
    verify_update_jwt request w = (Returns (t2, s), w2)
    /\ (forall w3,
           clock w (S (ticks w)) <= clock w3 (ticks w3) ->
           clock w3 (ticks w3) < timegm (clock w (S (ticks w)) + timedelta 0 5) * 1000000 ->
           fst (decode_jwt t2 w3) = Returns s)
    /\ (timegm (clock w (S (ticks w))) = timegm (clock w0 (ticks w0)) <-> t2 = t1).
Proof.
  intros E Hc Hle Hlt. rewrite timegm_five_minutes in Hlt.
  pose proof (encode_jwt_claims s w0) as He. cbv zeta in He.
  rewrite E in He. simpl in He. injection He as ->.
  set (i0 := timegm (clock w0 (ticks w0))) in *.
  set (t1 := jws_encode (issued_claims s i0 (i0 + 300)) JWT_KEY) in *.
  assert (verify_jwt request w =
          (Returns s, tick (log (CallJwtDecode t1)
                                (log (CallCookiesGet jwt_token_cookie_key) w)))) as Hv.
  { rewrite verify_jwt_spec, Hc.
    change ("Bearer " +:+ t1) with ("Bearer" +:+ String " " t1).
    rewrite (partition_first_sep "Bearer" t1 " " eq_refl). simpl snd.
    unfold t1. rewrite decode_issued_token; simpl clock; simpl ticks.
    - destruct (Z.leb_spec ((i0 + 300) * 1000000) (clock w (ticks w)));
        [lia|reflexivity].
    - pose proof (timegm_le (clock w0 (ticks w0))). unfold i0. lia. }
  pose proof (rotation_expiry_from_now _ _ _ _ Hv) as (_ & _ & _ & Hr).
  destruct (verify_update_jwt request w) as [r w2] eqn:Eu. simpl in Hr. subst r.
  set (ir := timegm (clock w (S (ticks w)))) in *.
  eexists _, w2. split; [reflexivity|]. split.
  - intros w3 H3 H4. rewrite timegm_five_minutes in H4. fold ir in H4.
    rewrite decode_issued_token.
    + simpl. destruct (Z.leb_spec ((ir + 300) * 1000000) (clock w3 (ticks w3)));
        [lia|reflexivity].
    + pose proof (timegm_le (clock w (S (ticks w)))). fold ir in H. lia.
  - split.
    + intros ->. reflexivity.
    + intros Heq. apply jws_encode_issued_inj in Heq. tauto.
Qed.

(** ** Password check *)

(** C8, as the code has it: [verify_password] is the password context's
    [verify] and catches nothing: it leaves the world alone, raises
    [UnknownHashError] for every blob without a bcrypt identifier (the
    empty blob and a stored plain-text password among them), and for a
    blob with one yields what the bcrypt check yields, a boolean or the
    exception it raises. *)
Theorem verify_password_outcome (bcrypt_verify : string -> string -> outcome bool)
    (plain_pw hashed_pw : string) (w : World) :
  snd (verify_password bcrypt_verify plain_pw hashed_pw w) = w
  /\ (bcrypt_identify hashed_pw = false ->
      fst (verify_password bcrypt_verify plain_pw hashed_pw w) = Raises UnknownHashError)
  /\ (bcrypt_identify hashed_pw = true ->
      fst (verify_password bcrypt_verify plain_pw hashed_pw w) =
      bcrypt_verify plain_pw hashed_pw)
  /\ bcrypt_identify EmptyString = false
  /\ bcrypt_identify "hunter2" = false.
Proof.
  unfold verify_password, pwd_ctx_verify. simpl.
  repeat split; intros H; rewrite H; reflexivity.
Qed.

(** ** The mutating handlers *)

Ltac pr_prim :=
  let H := fresh in
  intros ? ? ? H; cbv beta iota zeta delta [cookies_get utcnow read_clock jwt_encode_call
    jwt_decode_call get_csrf_from_headers_call validate_csrf_call insert_one
    find_one update_one delete_one ObjectId] in H;
  repeat match type of H with
         | context [match ?x with _ => _ end] => destruct x
         | context [if ?x then _ else _] => destruct x
         end;
  inversion H; reflexivity.

Lemma pr_cookies_get request k : preserves_response (cookies_get request k).
Proof. pr_prim. Qed.

Lemma pr_utcnow : preserves_response utcnow.
Proof. pr_prim. Qed.

Lemma pr_jwt_encode_call p k : preserves_response (jwt_encode_call p k).
Proof. pr_prim. Qed.

Lemma pr_jwt_decode_call token k : preserves_response (jwt_decode_call token k).
Proof. pr_prim. Qed.

Lemma pr_get_csrf csrf_protect hs :
  preserves_response (get_csrf_from_headers_call csrf_protect hs).
Proof. pr_prim. Qed.

Lemma pr_validate_csrf csrf_protect t :
  preserves_response (validate_csrf_call csrf_protect t).
Proof. pr_prim. Qed.

Lemma pr_ObjectId id : preserves_response (ObjectId id).
Proof. pr_prim. Qed.

Lemma pr_insert_one data : preserves_response (insert_one data).
Proof. pr_prim. Qed.

Lemma pr_find_one oid : preserves_response (find_one oid).
Proof. pr_prim. Qed.

Lemma pr_update_one oid data : preserves_response (update_one oid data).
Proof. pr_prim. Qed.

Lemma pr_delete_one oid : preserves_response (delete_one oid).
Proof. pr_prim. Qed.

Create HintDb frame.
#[local] Hint Resolve pr_cookies_get pr_utcnow pr_jwt_encode_call pr_jwt_decode_call
  pr_get_csrf pr_validate_csrf pr_ObjectId pr_insert_one pr_find_one pr_update_one
  pr_delete_one : frame.

Ltac frame :=
  repeat first
    [ apply pr_ret
    | apply pr_raise
    | solve [auto with frame]
    | apply pr_bind; [|intros]
    | match goal with
      | |- preserves_response (match ?x with _ => _ end) => destruct x
      | |- preserves_response (if ?x then _ else _) => destruct x
      end ].

Lemma pr_decode_jwt token : preserves_response (decode_jwt token).
Proof.
  unfold decode_jwt. apply pr_try_except.
  - unfold getitem_sub. frame.
  - intros e h H. destruct e as [| [] | | | | | |]; inversion H; apply pr_raise.
Qed.
#[local] Hint Resolve pr_decode_jwt : frame.

Lemma pr_verify_csrf_update_jwt request csrf_protect hs :
  preserves_response (verify_csrf_update_jwt request csrf_protect hs).
Proof.
  unfold verify_csrf_update_jwt, verify_update_jwt, verify_jwt, encode_jwt. frame.
Qed.







(** * Further properties *)

(** ** Identifiers *)

Lemma ascii_to_digit_hex_nibble (x : N) :
  (x < 16)%N -> HexString.ascii_to_digit (hex_nibble x) = Some x.
Proof.
  intros H. destruct x as [|p]; [reflexivity|].
  repeat (destruct p as [p|p|]; try reflexivity; try lia).
Qed.

Lemma hex_value_hex_fixed (d : nat) :
  forall (n : N) (acc : string) (a : N),
    hex_value (hex_fixed d n acc) a =
    hex_value acc (a * 16 ^ N.of_nat d + n mod 16 ^ N.of_nat d)%N.
Proof.
  induction d as [|d IH]; intros n acc a.
  - simpl. rewrite N.mod_1_r. f_equal. lia.
  - cbn [hex_fixed]. rewrite IH. cbn [hex_value].
    rewrite ascii_to_digit_hex_nibble by (apply N.mod_lt; lia).
    f_equal. rewrite Nat2N.inj_succ, N.pow_succ_r'.
    rewrite (N.Div0.mod_mul_r n 16 (16 ^ N.of_nat d)). lia.
Qed.

Lemma length_hex_fixed (d : nat) :
  forall (n : N) (acc : string),
    String.length (hex_fixed d n acc) = (d + String.length acc)%nat.
Proof.
  induction d as [|d IH]; intros n acc; [reflexivity|].
  cbn [hex_fixed]. rewrite IH. simpl. lia.
Qed.

Lemma parse_str_of_oid (oid : N) :
  (oid < 2 ^ 96)%N -> parse_oid (str_of_oid oid) = Some oid.
Proof.
  intros H. unfold parse_oid, str_of_oid.
  rewrite length_hex_fixed. cbn [String.length Nat.add Nat.eqb].
  rewrite hex_value_hex_fixed. cbn [hex_value]. f_equal.
  change (16 ^ N.of_nat 24)%N with (2 ^ 96)%N.
  rewrite N.mod_small by exact H. lia.
Qed.

Lemma ObjectId_spec (id : string) (w : World) :
  ObjectId id w =
  (match parse_oid id with
   | Some oid => Returns oid
   | None => Raises (InvalidId id)
   end, w).
Proof.
  unfold ObjectId, parse_oid. destruct (Nat.eqb (String.length id) 24); [|reflexivity].
  destruct (hex_value id 0); reflexivity.
Qed.

Lemma parse_oid_length (id : string) :
  String.length id <> 24%nat -> parse_oid id = None.
Proof.
  intros H. unfold parse_oid.
  destruct (Nat.eqb_spec (String.length id) 24); [contradiction|reflexivity].
Qed.

(** X1: The id that [todo_serializer] writes for a document is a string of
    24 characters that [ObjectId] accepts and maps back to the [_id] of
    the document. *)
Theorem todo_serializer_id_roundtrip (oid : N) (d : TodoBody) (w : World) :
  (oid < 2 ^ 96)%N ->
  String.length (todo_id (todo_serializer (oid, d))) = 24%nat
  /\ ObjectId (todo_id (todo_serializer (oid, d))) w = (Returns oid, w).
Proof.
  intros H. split.
  - unfold todo_serializer, str_of_oid. cbn [todo_id fst].
    rewrite length_hex_fixed. reflexivity.
  - rewrite ObjectId_spec. unfold todo_serializer. cbn [todo_id fst].
    rewrite (parse_str_of_oid _ H). reflexivity.
Qed.

(** ** The todo collection *)

Lemma db_get_single_todo_spec (id : string) (w : World) :
  db_get_single_todo id w =
  match parse_oid id with
  | None => (Raises (InvalidId id), w)
  | Some oid =>
      (match collection_todo w !! oid with
       | Some d => Returns (IsDict (todo_serializer (oid, d)))
       | None => Returns (IsBool false)
       end, log (CallFindOne oid) w)
  end.
Proof.
  unfold db_get_single_todo. rewrite bind_unfold, ObjectId_spec.
  destruct (parse_oid id) as [oid|]; [|reflexivity].
  rewrite bind_unfold. unfold find_one.
  destruct (collection_todo w !! oid); reflexivity.
Qed.

Lemma db_create_todo_spec (data : TodoBody) (w : World) :
  db_create_todo data w =
  (Returns (IsDict (todo_serializer (next_oid w, data))),
   log (CallFindOne (next_oid w))
       (log (CallInsertOne (next_oid w))
            (with_collection (<[next_oid w := data]> (collection_todo w))
                             (N.succ (next_oid w)) w))).
Proof.
  unfold db_create_todo. rewrite bind_unfold. unfold insert_one.
  rewrite bind_unfold. unfold find_one.
  cbn [collection_todo log with_collection]. rewrite lookup_insert_eq. reflexivity.
Qed.

Lemma db_update_todo_spec (id : string) (data : TodoBody) (w : World) (oid : N) :
  parse_oid id = Some oid ->
  db_update_todo id data w =
  match collection_todo w !! oid with
  | Some _ =>
      (Returns (IsDict (todo_serializer (oid, data))),
       log (CallFindOne oid)
           (log (CallUpdateOne oid)
                (with_collection (<[oid := data]> (collection_todo w)) (next_oid w)
                                 (log (CallFindOne oid) w))))
  | None => (Returns (IsBool false), log (CallFindOne oid) w)
  end.
Proof.
  intros Hp. unfold db_update_todo. rewrite bind_unfold, ObjectId_spec, Hp.
  rewrite bind_unfold. unfold find_one at 1.
  destruct (collection_todo w !! oid) as [d0|] eqn:E; [|reflexivity].
  rewrite bind_unfold, ObjectId_spec, Hp, bind_unfold. unfold update_one.
  cbn [collection_todo log]. rewrite E. cbv iota beta.
  change (0 <? 1) with true. cbv iota.
  rewrite bind_unfold, ObjectId_spec, Hp, bind_unfold. unfold find_one.
  cbn [collection_todo log with_collection]. rewrite lookup_insert_eq. reflexivity.
Qed.

Lemma db_delete_todo_spec (id : string) (w : World) (oid : N) :
  parse_oid id = Some oid ->
  db_delete_todo id w =
  match collection_todo w !! oid with
  | Some _ =>
      (Returns true,
       log (CallDeleteOne oid)
           (with_collection (delete oid (collection_todo w)) (next_oid w)
                            (log (CallFindOne oid) w)))
  | None => (Returns false, log (CallFindOne oid) w)
  end.
Proof.
  intros Hp. unfold db_delete_todo. rewrite bind_unfold, ObjectId_spec, Hp.
  rewrite bind_unfold. unfold find_one.
  destruct (collection_todo w !! oid) as [d0|] eqn:E; [|reflexivity].
  rewrite bind_unfold, ObjectId_spec, Hp, bind_unfold. unfold delete_one.
  cbn [collection_todo log]. rewrite E. reflexivity.
Qed.

(** X2: [db_create_todo] always returns the created todo, never [False]:
    it carries the data given, a following [db_get_single_todo] of its
    id returns it again, and no other document is touched. *)
Theorem db_create_then_get (data : TodoBody) (w : World) :
  (next_oid w < 2 ^ 96)%N ->
  exists t w1,
    db_create_todo data w = (Returns (IsDict t), w1)
    /\ todo_title t = title data /\ todo_description t = description data
    /\ fst (db_get_single_todo (todo_id t) w1) = Returns (IsDict t)
    /\ (forall oid, oid <> next_oid w ->
                    collection_todo w1 !! oid = collection_todo w !! oid)
    /\ response w1 = response w.
Proof.
  intros H. rewrite db_create_todo_spec. eexists _, _. split; [reflexivity|].
  split; [reflexivity|]. split; [reflexivity|]. split; [|split].
  - rewrite db_get_single_todo_spec. unfold todo_serializer. cbn [todo_id fst snd].
    rewrite (parse_str_of_oid _ H). cbn [collection_todo log with_collection fst].
    rewrite lookup_insert_eq. reflexivity.
  - intros oid Hne. cbn [collection_todo log with_collection].
    apply lookup_insert_ne. congruence.
  - reflexivity.
Qed.

(** X3: [db_update_todo] on a well-formed id: it returns the todo with the
    new data when the document exists and [False] when it does not; a
    following [db_get_single_todo] of the same id gives the same answer;
    no other document is touched, and nothing at all when the document
    does not exist. *)
Theorem db_update_then_get (id : string) (data : TodoBody) (w : World) (oid : N) :
  parse_oid id = Some oid ->
  exists r w1,
    db_update_todo id data w = (Returns r, w1)
    /\ r = match collection_todo w !! oid with
           | Some _ => IsDict (mkTodo (str_of_oid oid) (title data) (description data))
           | None => IsBool false
           end
    /\ fst (db_get_single_todo id w1) = Returns r
    /\ (forall oid', oid' <> oid ->
                     collection_todo w1 !! oid' = collection_todo w !! oid')
    /\ (collection_todo w !! oid = None -> collection_todo w1 = collection_todo w)
    /\ next_oid w1 = next_oid w /\ response w1 = response w.
Proof.
  intros Hp. rewrite (db_update_todo_spec _ _ _ _ Hp).
  destruct (collection_todo w !! oid) as [d0|] eqn:E; eexists _, _;
    (split; [reflexivity|]); (split; [reflexivity|]);
    rewrite db_get_single_todo_spec, Hp; cbn [collection_todo log with_collection fst].
  - rewrite lookup_insert_eq. repeat split; try reflexivity.
    + intros oid' Hne. apply lookup_insert_ne. congruence.
    + discriminate.
  - rewrite E. repeat split; reflexivity.
Qed.

(** X4: [db_delete_todo] on a well-formed id returns [True] exactly when the
    document existed; afterwards the document is gone, so that
    [db_get_single_todo] and a second [db_delete_todo] of the same id
    both answer [False]; no other document is touched. *)
Theorem db_delete_then_get (id : string) (w : World) (oid : N) :
  parse_oid id = Some oid ->
  exists w1,
    db_delete_todo id w =
    (Returns match collection_todo w !! oid with Some _ => true | None => false end, w1)
    /\ collection_todo w1 !! oid = None
    /\ fst (db_get_single_todo id w1) = Returns (IsBool false)
    /\ fst (db_delete_todo id w1) = Returns false
    /\ (forall oid', oid' <> oid ->
                     collection_todo w1 !! oid' = collection_todo w !! oid')
    /\ next_oid w1 = next_oid w /\ response w1 = response w.
Proof.
  intros Hp. rewrite (db_delete_todo_spec _ _ _ Hp).
  destruct (collection_todo w !! oid) as [d0|] eqn:E; eexists;
    (split; [reflexivity|]);
    rewrite db_get_single_todo_spec, (db_delete_todo_spec _ _ _ Hp), Hp;
    cbn [collection_todo log with_collection fst].
  - rewrite lookup_delete_eq. repeat split; try reflexivity.
    intros oid' Hne. apply lookup_delete_ne. congruence.
  - rewrite E. repeat split; reflexivity.
Qed.

Lemma hex_value_refused (id : string) :
  has fromhex_refuses id = true -> forall acc, hex_value id acc = None.
Proof.
  induction id as [|c id IH]; [discriminate|].
  cbn [has hex_value]. unfold fromhex_refuses at 1. intros H acc.
  destruct (HexString.ascii_to_digit c) as [d|]; [|reflexivity].
  cbn [orb] in H. apply IH. exact H.
Qed.

Lemma continuation_byte_refused (c : ascii) :
  is_continuation_byte c = true -> fromhex_refuses c = true.
Proof.
  destruct c as [b0 b1 b2 b3 b4 b5 b6 b7]. cbn [is_continuation_byte].
  intros H. apply andb_prop in H as [-> H]. apply negb_true_iff in H as ->.
  destruct b0, b1, b2, b3, b4, b5; reflexivity.
Qed.

Lemma len_without_refused (id : string) :
  has fromhex_refuses id = false -> len id = String.length id.
Proof.
  induction id as [|c id IH]; [reflexivity|].
  cbn [has len String.length]. intros H.
  apply orb_false_elim in H as [Hc H]. rewrite (IH H).
  destruct (is_continuation_byte c) eqn:E; [|reflexivity].
  rewrite (continuation_byte_refused _ E) in Hc. discriminate.
Qed.

(** X5: An id that has not 24 characters, or that holds a character that
    is neither a hexadecimal digit nor ASCII white space, makes
    [db_get_single_todo], [db_update_todo] and [db_delete_todo] raise
    [InvalidId] before any call to the collection: the world is as it
    was. *)
Theorem db_invalid_id (id : string) (data : TodoBody) (w : World) :
  len id <> 24%nat \/ has fromhex_refuses id = true ->
  db_get_single_todo id w = (Raises (InvalidId id), w)
  /\ db_update_todo id data w = (Raises (InvalidId id), w)
  /\ db_delete_todo id w = (Raises (InvalidId id), w).
Proof.
  intros H. assert (parse_oid id = None) as Hp.
  { destruct (has fromhex_refuses id) eqn:Hh.
    - unfold parse_oid. rewrite (hex_value_refused _ Hh).
      destruct (Nat.eqb _ _); reflexivity.
    - destruct H as [H|H]; [|discriminate].
      rewrite (len_without_refused _ Hh) in H. exact (parse_oid_length _ H). }
  unfold db_get_single_todo, db_update_todo, db_delete_todo.
  rewrite !bind_unfold, ObjectId_spec, Hp. auto.
Qed.

(** X6: [db_get_todos] reads and does not write: it returns at most 100
    todos, each the serialisation of a stored document, and all of them
    when the collection holds no more than 100. *)
Theorem db_get_todos_bounded (w : World) :
  exists todos,
    db_get_todos w = (Returns todos, w)
    /\ length todos = Nat.min 100 (size (collection_todo w))
    /\ (forall t, t ∈ todos ->
                  exists oid d, collection_todo w !! oid = Some d
                                /\ t = todo_serializer (oid, d))
    /\ ((size (collection_todo w) <= 100)%nat ->
        forall oid d, collection_todo w !! oid = Some d ->
                      todo_serializer (oid, d) ∈ todos).
Proof.
  eexists. split; [reflexivity|]. split; [|split].
  - rewrite length_fmap, length_take, length_map_to_list. reflexivity.
  - intros t Ht. apply list_elem_of_fmap in Ht as ([oid d] & -> & Hin).
    apply subseteq_take in Hin. apply elem_of_map_to_list in Hin. eauto.
  - intros Hs oid d Hl. apply list_elem_of_fmap. exists (oid, d).
    split; [reflexivity|]. rewrite take_ge by (rewrite length_map_to_list; lia).
    apply elem_of_map_to_list. exact Hl.
Qed.

(** ** What the checks leave alone *)

Lemma keeps_ret {S A} (proj : World -> S) (a : A) : keeps proj (mret a : M A).
Proof. intros w r w' H. inversion H. reflexivity. Qed.

Lemma keeps_raise {S A} (proj : World -> S) (e : exn) : keeps proj (raise e : M A).
Proof. intros w r w' H. inversion H. reflexivity. Qed.

Lemma keeps_bind {S A B} (proj : World -> S) (m : M A) (f : A -> M B) :
  keeps proj m -> (forall a, keeps proj (f a)) -> keeps proj (m ≫= f).
Proof.
  intros Hm Hf w r w' H. rewrite bind_unfold in H.
  destruct (m w) as [[a|e] w1] eqn:Em.
  - rewrite (Hf a _ _ _ H). exact (Hm _ _ _ Em).
  - inversion H; subst. exact (Hm _ _ _ Em).
Qed.

Lemma keeps_decode_jwt {S} (proj : World -> S) (token : string) :
  (forall ev w, proj (log ev w) = proj w) -> (forall w, proj (tick w) = proj w) ->
  keeps proj (decode_jwt token).
Proof.
  intros Hl Ht w r w' H. rewrite decode_jwt_spec in H. inversion H.
  rewrite Ht, Hl. reflexivity.
Qed.

Lemma keeps_verify_jwt {S} (proj : World -> S) (request : Request) :
  (forall ev w, proj (log ev w) = proj w) -> (forall w, proj (tick w) = proj w) ->
  keeps proj (verify_jwt request).
Proof.
  intros Hl Ht w r w' H. rewrite verify_jwt_spec in H.
  destruct (cookies request !! jwt_token_cookie_key).
  - rewrite (keeps_decode_jwt proj _ Hl Ht _ _ _ H). apply Hl.
  - inversion H. apply Hl.
Qed.

Lemma keeps_encode_jwt {S} (proj : World -> S) (email : string) :
  (forall ev w, proj (log ev w) = proj w) -> (forall w, proj (tick w) = proj w) ->
  keeps proj (encode_jwt email).
Proof.
  intros Hl Ht w r w' H. rewrite encode_jwt_spec in H. inversion H.
  rewrite Hl, Ht, Hl. reflexivity.
Qed.

Lemma keeps_verify_update_jwt {S} (proj : World -> S) (request : Request) :
  (forall ev w, proj (log ev w) = proj w) -> (forall w, proj (tick w) = proj w) ->
  keeps proj (verify_update_jwt request).
Proof.
  intros Hl Ht. unfold verify_update_jwt.
  apply keeps_bind; [apply keeps_verify_jwt; assumption|intros s].
  apply keeps_bind; [apply keeps_encode_jwt; assumption|intros t].
  apply keeps_ret.
Qed.

Lemma keeps_verify_csrf_update_jwt {S} (proj : World -> S) (request : Request)
    (csrf_protect : CsrfProtect) (hs : list (string * string)) :
  (forall ev w, proj (log ev w) = proj w) -> (forall w, proj (tick w) = proj w) ->
  keeps proj (verify_csrf_update_jwt request csrf_protect hs).
Proof.
  intros Hl Ht. unfold verify_csrf_update_jwt.
  apply keeps_bind; [|intros t; apply keeps_bind; [|intros _; apply keeps_bind]].
  - intros w r w' H. inversion H. apply Hl.
  - intros w r w' H. inversion H. apply Hl.
  - apply keeps_verify_update_jwt; assumption.
  - intros [t' s]. apply keeps_ret.
Qed.

Lemma appends_ret {A} (P : event -> bool) (a : A) : appends_only P (mret a : M A).
Proof.
  intros w r w' H. inversion H; subst. exists []. rewrite app_nil_r. auto.
Qed.

Lemma appends_bind {A B} (P : event -> bool) (m : M A) (f : A -> M B) :
  appends_only P m -> (forall a, appends_only P (f a)) -> appends_only P (m ≫= f).
Proof.
  intros Hm Hf w r w' H. rewrite bind_unfold in H.
  destruct (m w) as [[a|e] w1] eqn:Em.
  - destruct (Hm _ _ _ Em) as (e1 & T1 & F1).
    destruct (Hf a _ _ _ H) as (e2 & T2 & F2).
    exists (e1 ++ e2). rewrite T2, T1, <- app_assoc, forallb_app, F1, F2. auto.
  - inversion H; subst. exact (Hm _ _ _ Em).
Qed.

Lemma appends_verify_jwt (request : Request) :
  appends_only session_read_event (verify_jwt request).
Proof.
  intros w r w' H. rewrite verify_jwt_spec in H.
  destruct (cookies request !! jwt_token_cookie_key) as [c|].
  - rewrite decode_jwt_spec in H. inversion H; subst.
    exists [CallCookiesGet jwt_token_cookie_key; CallJwtDecode (snd (partition c " "))].
    simpl. rewrite <- app_assoc. auto.
  - inversion H; subst. exists [CallCookiesGet jwt_token_cookie_key]. auto.
Qed.

(** X7: [get_todos] checks the session and does not rotate it: whatever the
    request, the response is not written, the collection is not changed,
    and none of the calls of a rotation is made (no reading of the clock
    for a new token, no [jwt.encode], no [set_cookie]); without session
    cookie it raises the 404 of a missing session, and with a session
    that verifies it returns at most 100 todos. *)
Theorem get_todos_read_only (request : Request) (w : World) :
  exists r w1,
    get_todos request w = (r, w1)
    /\ response w1 = response w
    /\ collection_todo w1 = collection_todo w /\ next_oid w1 = next_oid w
    /\ (exists evs, trace w1 = trace w ++ evs
                    /\ forallb (fun ev => negb (rotation_event ev)) evs = true)
    /\ (cookies request !! jwt_token_cookie_key = None -> r = Raises SessionMissing)
    /\ (forall s, fst (verify_jwt request w) = Returns s ->
                  exists todos, r = Returns todos /\ (length todos <= 100)%nat).
Proof.
  destruct (get_todos request w) as [r w1] eqn:E. exists r, w1.
  split; [reflexivity|].
  assert (forall S (proj : World -> S),
             (forall ev w, proj (log ev w) = proj w) ->
             (forall w, proj (tick w) = proj w) -> proj w1 = proj w) as K.
  { intros S proj Hl Ht. revert E. apply (keeps_bind proj).
    - apply keeps_verify_jwt; assumption.
    - intros _. apply keeps_bind; [|intros; apply keeps_ret].
      apply keeps_bind; [|intros; apply keeps_ret].
      intros w0 r0 w0' H0. inversion H0. reflexivity. }
  split; [apply (K _ response); reflexivity|].
  split; [apply (K _ collection_todo); reflexivity|].
  split; [apply (K _ next_oid); reflexivity|].
  split; [|split].
  - assert (exists evs, trace w1 = trace w ++ evs
                        /\ forallb session_read_event evs = true)
      as (evs & Ht & Hf).
    { revert E. apply appends_bind; [apply appends_verify_jwt|intros _].
      apply appends_bind; [|intros; apply appends_ret].
      apply appends_bind; [|intros; apply appends_ret].
      intros w0 r0 w0' H0. inversion H0; subst. exists []. rewrite app_nil_r. auto. }
    exists evs. split; [exact Ht|]. clear -Hf.
    induction evs as [|ev evs IH]; [reflexivity|].
    cbn [forallb] in *. apply andb_prop in Hf as [H1 H2]. rewrite (IH H2).
    destruct ev; try discriminate; reflexivity.
  - intros Hc. unfold get_todos in E. rewrite bind_unfold, verify_jwt_spec, Hc in E.
    inversion E. reflexivity.
  - intros s Hs. unfold get_todos in E. rewrite bind_unfold in E.
    destruct (verify_jwt request w) as [r0 w0]. simpl in Hs. subst r0.
    rewrite bind_unfold in E.
    cbn in E. inversion E; subst. eexists. split; [reflexivity|].
    rewrite length_fmap, length_take. lia.
Qed.

(** ** The todo handlers *)

Lemma pr_db_get_single_todo id : preserves_response (db_get_single_todo id).
Proof. unfold db_get_single_todo. frame. Qed.

Lemma pr_verify_update_jwt request : preserves_response (verify_update_jwt request).
Proof. unfold verify_update_jwt, verify_jwt, encode_jwt. frame. Qed.

(** X8: The reply of [get_single_todo] to a well-formed id.  When the
    session check raises, the handler raises the same error and the
    reply sets no cookie.  When it passes, a stored document is answered
    with its todo, status 200 and the rotated cookie; an id that is
    stored nowhere is answered with 404, the id in the detail, and no
    cookie: the handler has set the rotated cookie on its [Response]
    before looking at what the collection returned, and that object is
    dropped when the handler raises. *)
Theorem get_single_todo_reply (request : Request) (id : string) (w : World)
    (oid : N) :
  parse_oid id = Some oid ->
  match verify_update_jwt request (fresh_response w) with
  | (Raises e, _) =>
      fst (get_single_todo request id (fresh_response w)) = Raises e
      /\ reply_set_cookie (reply (get_single_todo request id) w) = []
  | (Returns (new_token, _), _) =>
      match collection_todo w !! oid with
      | Some d =>
          fst (get_single_todo request id (fresh_response w)) =
          Returns (mkTodo (str_of_oid oid) (title d) (description d))
          /\ reply (get_single_todo request id) w =
             mkReply (Some 200) [bearer_cookie new_token]
      | None =>
          fst (get_single_todo request id (fresh_response w)) =
          Raises (HTTPException 404 ("Task of ID:" +:+ id +:+ " doesn't exist."))
          /\ reply (get_single_todo request id) w = mkReply (Some 404) []
      end
  end.
Proof.
  intros Hp. unfold reply.
  destruct (verify_update_jwt request (fresh_response w)) as [[[tok s]|e] w1] eqn:Ev.
  - pose proof (pr_verify_update_jwt _ _ _ _ Ev) as Hr1.
    pose proof (keeps_verify_update_jwt collection_todo request
                  (fun _ _ => eq_refl) (fun _ => eq_refl) _ _ _ Ev) as Hk.
    cbn [collection_todo response fresh_response with_response] in Hr1, Hk.
    unfold get_single_todo. rewrite bind_unfold, Ev. cbv iota beta.
    rewrite bind_unfold, db_get_single_todo_spec, Hp, Hk.
    destruct (collection_todo w !! oid) as [d|]; rewrite bind_unfold;
      cbn -[str_of_oid String.append]; rewrite ?Hr1; split; reflexivity.
  - unfold get_single_todo. rewrite bind_unfold, Ev. split; [reflexivity|].
    destruct e; reflexivity.
Qed.

(** X9: A create, update or delete request that fails the CSRF check or the
    session check never reaches the collection: the handler raises the
    error of the check, no document and no id is changed, and no call to
    the collection is logged. *)
Theorem mutation_needs_verification (request : Request) (id : string)
    (data : TodoBody) (csrf_protect : CsrfProtect) (w w1 : World) (e : exn) :
  verify_csrf_update_jwt request csrf_protect (headers request) w = (Raises e, w1) ->
  create_todo request data csrf_protect w = (Raises e, w1)
  /\ update_todo request id data csrf_protect w = (Raises e, w1)
  /\ delete_todo request id csrf_protect w = (Raises e, w1)
  /\ collection_todo w1 = collection_todo w /\ next_oid w1 = next_oid w
  /\ exists evs, trace w1 = trace w ++ evs
                 /\ forallb (fun ev => negb (db_event ev)) evs = true.
Proof.
  intros Ev. unfold create_todo, update_todo, delete_todo.
  rewrite !bind_unfold, Ev. repeat split.
  - exact (keeps_verify_csrf_update_jwt collection_todo _ _ _
             (fun _ _ => eq_refl) (fun _ => eq_refl) _ _ _ Ev).
  - exact (keeps_verify_csrf_update_jwt next_oid _ _ _
             (fun _ _ => eq_refl) (fun _ => eq_refl) _ _ _ Ev).
  - revert Ev. generalize (headers request) as hs. intros hs.
    unfold verify_csrf_update_jwt, verify_update_jwt. rewrite !bind_unfold.
    unfold get_csrf_from_headers_call.
    destruct (get_csrf_from_headers csrf_protect hs) as [ce|t].
    { intros H. inversion H; subst. exists [CallGetCsrfFromHeaders]. auto. }
    rewrite bind_unfold. unfold validate_csrf_call.
    destruct (validate_csrf csrf_protect t) as [ce|].
    { intros H. inversion H; subst.
      exists [CallGetCsrfFromHeaders; CallValidateCsrf t].
      simpl. rewrite <- app_assoc. auto. }
    rewrite !bind_unfold.
    destruct (verify_jwt request _) as [[s|e'] w2] eqn:Evj.
    { rewrite bind_unfold, encode_jwt_spec. discriminate. }
    intros H. inversion H; subst.
    destruct (appends_verify_jwt _ _ _ _ Evj) as (evs & Ht & Hf).
    exists ([CallGetCsrfFromHeaders; CallValidateCsrf t] ++ evs).
    rewrite Ht. simpl. rewrite <- !app_assoc. split; [reflexivity|].
    clear -Hf. induction evs as [|ev evs IH]; [reflexivity|].
    simpl in *. apply andb_prop in Hf as [H1 H2]. rewrite (IH H2).
    destruct ev; try discriminate; reflexivity.
Qed.

(** X10: With a request that passes both checks, [create_todo] stores the
    data under the next id, whatever the collection holds, and answers
    201 with the stored todo; [update_todo] and [delete_todo] on the id
    of a stored document replace its data, respectively remove it, and
    answer with the updated todo, respectively the success message.  In
    each case the response gains exactly the rotated cookie. *)
Theorem mutation_succeeds (request : Request) (id : string) (data : TodoBody)
    (csrf_protect : CsrfProtect) (w w1 : World) (new_token : string) :
  verify_csrf_update_jwt request csrf_protect (headers request) w =
  (Returns new_token, w1) ->
  (exists w2,
      create_todo request data csrf_protect w =
      (Returns (mkTodo (str_of_oid (next_oid w)) (title data) (description data)), w2)
      /\ collection_todo w2 = <[next_oid w := data]> (collection_todo w)
      /\ response w2 =
         mkResponse (set_cookie_headers (response w) ++ [bearer_cookie new_token])
                    (Some 201))
  /\ (forall oid d0,
         parse_oid id = Some oid ->
         collection_todo w !! oid = Some d0 ->
         (exists w2,
             update_todo request id data csrf_protect w =
             (Returns (mkTodo (str_of_oid oid) (title data) (description data)), w2)
             /\ collection_todo w2 = <[oid := data]> (collection_todo w)
             /\ response w2 =
                mkResponse (set_cookie_headers (response w) ++ [bearer_cookie new_token])
                           (resp_status_code (response w)))
         /\ (exists w2,
                delete_todo request id csrf_protect w =
                (Returns "Successfully deleted."%string, w2)
                /\ collection_todo w2 = delete oid (collection_todo w)
                /\ response w2 =
                   mkResponse
                     (set_cookie_headers (response w) ++ [bearer_cookie new_token])
                     (resp_status_code (response w)))).
Proof.
  intros Ev.
  pose proof (pr_verify_csrf_update_jwt _ _ _ _ _ _ Ev) as Hr.
  pose proof (keeps_verify_csrf_update_jwt collection_todo _ _ _
                (fun _ _ => eq_refl) (fun _ => eq_refl) _ _ _ Ev) as Hk.
  pose proof (keeps_verify_csrf_update_jwt next_oid _ _ _
                (fun _ _ => eq_refl) (fun _ => eq_refl) _ _ _ Ev) as Hn.
  split; [|intros oid d0 Hp Hc; split]; eexists.
  - unfold create_todo. rewrite bind_unfold, Ev. cbv iota beta.
    rewrite bind_unfold, db_create_todo_spec, Hn, Hk. cbv iota beta.
    split; [reflexivity|]. split; [reflexivity|].
    cbn [response log with_collection with_response set_cookie_headers snd].
    rewrite Hr. reflexivity.
  - unfold update_todo. rewrite bind_unfold, Ev. cbv iota beta.
    rewrite bind_unfold, (db_update_todo_spec _ _ _ _ Hp), Hk, Hc. cbv iota beta.
    split; [reflexivity|]. split; [reflexivity|].
    cbn [response log with_collection with_response set_cookie_headers snd].
    rewrite Hr. reflexivity.
  - unfold delete_todo. rewrite bind_unfold, Ev. cbv iota beta.
    rewrite bind_unfold, (db_delete_todo_spec _ _ _ Hp), Hk, Hc. cbv iota beta.
    split; [reflexivity|]. split; [reflexivity|].
    cbn [response log with_collection with_response set_cookie_headers snd].
    rewrite Hr. reflexivity.
Qed.

(** ** The session cookie from one request to the next *)

Lemma verify_jwt_bearer_issued (request : Request) (s : string) (i : Z) (w : World) :
  cookies request !! jwt_token_cookie_key =
  Some ("Bearer " +:+ jws_encode (issued_claims s i (i + 300)) JWT_KEY) ->
  i * 1000000 <= clock w (ticks w) ->
  verify_jwt request w =
  (if (i + 300) * 1000000 <=? clock w (ticks w) then Raises TokenExpired
   else Returns s,
   tick (log (CallJwtDecode (jws_encode (issued_claims s i (i + 300)) JWT_KEY))
             (log (CallCookiesGet jwt_token_cookie_key) w))).
Proof.
  intros Hc Hi. rewrite verify_jwt_spec, Hc.
  change ("Bearer " +:+ ?t) with ("Bearer" +:+ String " " t).
  rewrite (partition_first_sep "Bearer" _ " " eq_refl). cbn [snd].
  rewrite decode_issued_token; [reflexivity|exact Hi].
Qed.

Lemma get_user_refresh_jwt_spec (request : Request) (w : World) :
  get_user_refresh_jwt request w =
  match verify_jwt request w with
  | (Returns s, w1) =>
      match encode_jwt s w1 with
      | (Returns t, w2) =>
          (Returns s,
           log (CallSetCookie (bearer_cookie t))
               (with_response
                  (mkResponse (set_cookie_headers (response w2) ++ [bearer_cookie t])
                              (resp_status_code (response w2))) w2))
      | (Raises e, w2) => (Raises e, w2)
      end
  | (Raises e, w1) => (Raises e, w1)
  end.
Proof.
  unfold get_user_refresh_jwt, verify_update_jwt. rewrite !bind_unfold.
  destruct (verify_jwt request w) as [[s|e] w1]; [|reflexivity].
  rewrite bind_unfold. destruct (encode_jwt s w1) as [[t|e] w2]; reflexivity.
Qed.

(** X11: The session slides: when [get_user_refresh_jwt] succeeds it appends
    one [access_token] cookie (http-only, secure, same-site none) to the
    response; a later request that presents the value of that cookie is
    answered with the same subject as long as the clock has not reached
    the rotation second plus 300, and with 401 "JWT token has expired",
    without any cookie, from then on. *)
Theorem session_slides (request : Request) (w w1 : World) (s : string) :
  get_user_refresh_jwt request w = (Returns s, w1) ->
  exists c,
    set_cookie_headers (response w1) = set_cookie_headers (response w) ++ [c]
    /\ ck_key c = "access_token"%string
    /\ (ck_httponly c, ck_secure c, ck_samesite c) = (true, true, "none"%string)
    /\ forall request' w',
        cookies request' !! jwt_token_cookie_key = Some (ck_value c) ->
        clock w (S (ticks w)) <= clock w' (ticks w') ->
        (clock w' (ticks w') < (timegm (clock w (S (ticks w))) + 300) * 1000000 ->
         fst (get_user_refresh_jwt request' w') = Returns s)
        /\ ((timegm (clock w (S (ticks w))) + 300) * 1000000 <= clock w' (ticks w') ->
            fst (get_user_refresh_jwt request' w') = Raises TokenExpired
            /\ response (snd (get_user_refresh_jwt request' w')) = response w').
Proof.
  rewrite get_user_refresh_jwt_spec.
  destruct (verify_jwt request w) as [[s0|e] w0] eqn:Ev; [|discriminate].
  destruct (verify_jwt_returns _ _ _ _ Ev) as (Hc & Ht & Hr & _).
  pose proof (encode_jwt_claims s0 w0) as He. cbv zeta in He.
  rewrite encode_jwt_spec in *. cbn [fst] in He. injection He as He.
  rewrite Hc, Ht in He. intros H. injection H as -> <-.
  eexists. split; [cbn [response log with_response set_cookie_headers tick];
                   rewrite Hr; reflexivity|].
  split; [reflexivity|]. split; [reflexivity|].
  intros request' w' Hck Hle. cbn [ck_value bearer_cookie] in Hck.
  rewrite Hc, Ht, He in Hck.
  assert (timegm (clock w (S (ticks w))) * 1000000 <= clock w' (ticks w')) as Hi.
  { pose proof (timegm_le (clock w (S (ticks w)))). lia. }
  rewrite get_user_refresh_jwt_spec, (verify_jwt_bearer_issued _ _ _ _ Hck Hi).
  split; intros Hx.
  - destruct (Z.leb_spec ((timegm (clock w (S (ticks w))) + 300) * 1000000)
                         (clock w' (ticks w'))); [lia|].
    rewrite encode_jwt_spec. reflexivity.
  - destruct (Z.leb_spec ((timegm (clock w (S (ticks w))) + 300) * 1000000)
                         (clock w' (ticks w'))); [|lia].
    split; reflexivity.
Qed.

(** X13: Two tokens of [encode_jwt] are the same string only when they were
    issued for the same subject, in the same whole second: a token
    never stands for two subjects. *)
Theorem encode_jwt_injective (s1 s2 : string) (w1 w2 : World) :
  fst (encode_jwt s1 w1) = fst (encode_jwt s2 w2) ->
  s1 = s2 /\ timegm (clock w1 (ticks w1)) = timegm (clock w2 (ticks w2)).
Proof.
  pose proof (encode_jwt_claims s1 w1) as H1.
  pose proof (encode_jwt_claims s2 w2) as H2. cbv zeta in H1, H2.
  rewrite H1, H2. intros H. injection H as H.
  exact (jws_encode_issued_inj _ _ _ _ H).
Qed.

(** X14: The three checks of [AuthJwtCsrf] only compute: whatever they return
    or raise, the response, the todo collection and the id generator are
    as they were, so a rotated token reaches the client only if the
    caller writes it to a cookie. *)
Theorem checks_write_nothing (request : Request) (csrf_protect : CsrfProtect)
    (hs : list (string * string)) (w : World) :
  let unchanged (w1 : World) :=
    response w1 = response w /\ collection_todo w1 = collection_todo w
    /\ next_oid w1 = next_oid w /\ clock w1 = clock w in
  unchanged (snd (verify_jwt request w))
  /\ unchanged (snd (verify_update_jwt request w))
  /\ unchanged (snd (verify_csrf_update_jwt request csrf_protect hs w)).
Proof.
  intros unchanged.
  assert (forall {A} (m : M A),
             (forall S (proj : World -> S),
                 (forall ev w, proj (log ev w) = proj w) ->
                 (forall w, proj (tick w) = proj w) -> keeps proj m) ->
             unchanged (snd (m w))) as K.
  { intros A m Hm. destruct (m w) as [r w1] eqn:E. unfold unchanged. cbn [snd].
    repeat split.
    - exact (Hm _ response (fun _ _ => eq_refl) (fun _ => eq_refl) _ _ _ E).
    - exact (Hm _ collection_todo (fun _ _ => eq_refl) (fun _ => eq_refl) _ _ _ E).
    - exact (Hm _ next_oid (fun _ _ => eq_refl) (fun _ => eq_refl) _ _ _ E).
    - exact (Hm _ clock (fun _ _ => eq_refl) (fun _ => eq_refl) _ _ _ E). }
  split; [|split]; apply K; intros S proj Hl Ht.
  - apply keeps_verify_jwt; assumption.
  - apply keeps_verify_update_jwt; assumption.
  - apply keeps_verify_csrf_update_jwt; assumption.
Qed.

(** X15: A token that the library accepts but that carries no [sub] is not
    answered with 401: the [KeyError] of the subscript in [decode_jwt]
    is caught by neither [except] clause, and it escapes [verify_jwt] and
    [get_user_refresh_jwt], which sets no cookie. *)
Theorem missing_sub_escapes (request : Request) (w : World) (token : string)
    (c : claims) :
  cookies request !! jwt_token_cookie_key = Some ("Bearer " +:+ token) ->
  jwt_decode token JWT_KEY (clock w (ticks w)) = inr c ->
  sub c = None ->
  fst (verify_jwt request w) = Raises (KeyError "sub")
  /\ fst (get_user_refresh_jwt request w) = Raises (KeyError "sub")
  /\ response (snd (get_user_refresh_jwt request w)) = response w.
Proof.
  intros Hc Hd Hs.
  assert (verify_jwt request w =
          (Raises (KeyError "sub"),
           tick (log (CallJwtDecode token)
                     (log (CallCookiesGet jwt_token_cookie_key) w)))) as Hv.
  { rewrite verify_jwt_spec, Hc.
    change ("Bearer " +:+ token) with ("Bearer" +:+ String " " token).
    rewrite (partition_first_sep "Bearer" token " " eq_refl). cbn [snd].
    rewrite decode_jwt_spec. cbn [clock ticks log]. rewrite Hd, Hs. reflexivity. }
  rewrite get_user_refresh_jwt_spec, Hv. repeat split.
Qed.

(** ** Users *)

Section UserProperties.

Variable bcrypt_verify : string -> string -> outcome bool.
Variable bcrypt_hash : string -> string -> outcome string.
Hypothesis passlib_hash_verifies : hash_verifies bcrypt_verify bcrypt_hash.

Lemma bindS_unfold {A B} (m : MS A) (f : A -> MS B) (st : Store) :
  (m ≫= f) st =
  match m st with
  | (Returns a, st') => f a st'
  | (Raises e, st') => (Raises e, st')
  end.
Proof. reflexivity. Qed.

Lemma store_eta (st : Store) :
  mkStore (world st) (collection_user st) (salts st) (salts_drawn st) = st.
Proof. destruct st. reflexivity. Qed.

Lemma find_email_None (e : string) (users : list UserDoc) :
  e ∉ (user_email <$> users) ->
  List.find (fun u => String.eqb (user_email u) e) users = None.
Proof.
  induction users as [|u users IH]; [reflexivity|].
  rewrite fmap_cons, not_elem_of_cons. intros [Hne Hnin]. simpl.
  destruct (String.eqb_spec (user_email u) e); [congruence|]. exact (IH Hnin).
Qed.

Lemma find_email_Some (e : string) (users : list UserDoc) :
  e ∈ (user_email <$> users) ->
  exists u, List.find (fun u => String.eqb (user_email u) e) users = Some u
            /\ user_email u = e /\ u ∈ users.
Proof.
  induction users as [|u users IH]; [intros H; inversion H|].
  rewrite fmap_cons, elem_of_cons. intros H. simpl.
  destruct (String.eqb_spec (user_email u) e) as [Heq|Hne].
  - exists u. split; [reflexivity|]. split; [exact Heq|]. apply elem_of_cons. auto.
  - destruct H as [H|H]; [congruence|].
    destruct (IH H) as (u' & Hf & He & Hin). exists u'.
    split; [exact Hf|]. split; [exact He|]. apply elem_of_cons. auto.
Qed.

Lemma find_email_app (e : string) (users : list UserDoc) (u : UserDoc) :
  e ∉ (user_email <$> users) -> user_email u = e ->
  List.find (fun u => String.eqb (user_email u) e) (users ++ [u]) = Some u.
Proof.
  intros Hnin He. induction users as [|u0 users IH]; simpl.
  - rewrite He, String.eqb_refl. reflexivity.
  - rewrite fmap_cons, not_elem_of_cons in Hnin. destruct Hnin as [Hne Hnin].
    destruct (String.eqb_spec (user_email u0) e); [congruence|]. exact (IH Hnin).
Qed.

Lemma find_id_app (oid : N) (users : list UserDoc) (u : UserDoc) :
  oid ∉ (user_id <$> users) -> user_id u = oid ->
  List.find (fun u => N.eqb (user_id u) oid) (users ++ [u]) = Some u.
Proof.
  intros Hnin He. induction users as [|u0 users IH]; simpl.
  - rewrite He, N.eqb_refl. reflexivity.
  - rewrite fmap_cons, not_elem_of_cons in Hnin. destruct Hnin as [Hne Hnin].
    destruct (N.eqb_spec (user_id u0) oid); [congruence|]. exact (IH Hnin).
Qed.

Lemma db_signup_spec (data : UserBody) (st : Store) :
  db_signup bcrypt_hash data st =
  match List.find (fun u => String.eqb (user_email u) (ub_email data))
                  (collection_user st) with
  | Some _ => (Raises (HTTPException 401 "User already exists"), st)
  | None =>
      if Nat.ltb (len (ub_password data)) 6 then
        (Raises (HTTPException 401 "Password is too short"), st)
      else
        let drawn := mkStore (world st) (collection_user st) (salts st)
                             (S (salts_drawn st)) in
        match bcrypt_hash (salts st (salts_drawn st)) (ub_password data) with
        | Raises e => (Raises e, drawn)
        | Returns h =>
            let oid := next_oid (world st) in
            let users := collection_user st ++ [mkUserDoc oid (ub_email data) h] in
            (match List.find (fun u => N.eqb (user_id u) oid) users with
             | Some u => Returns (user_serializer u)
             | None => Raises (TypeError "'NoneType' object is not subscriptable")
             end,
             mkStore (with_collection (collection_todo (world st)) (N.succ oid)
                                      (world st))
                     users (salts st) (S (salts_drawn st)))
        end
  end.
Proof.
  unfold db_signup. rewrite bindS_unfold. unfold user_find_one_by_email.
  destruct (List.find _ (collection_user st)); [reflexivity|].
  destruct (Nat.ltb _ 6); [reflexivity|].
  rewrite bindS_unfold. unfold generate_hashed_pw.
  destruct (bcrypt_hash _ _) as [h|e]; [|reflexivity].
  rewrite bindS_unfold. unfold user_insert_one. cbv zeta.
  rewrite bindS_unfold. unfold user_find_one_by_id.
  cbn [world collection_user salts salts_drawn].
  destruct (List.find _ _); reflexivity.
Qed.

(** X16: [db_signup] refuses an email that is already stored with 401 "User
    already exists", whatever the password, and otherwise a password of
    fewer than 6 characters with 401 "Password is too short"; in both
    cases the store is left as it was. *)
Theorem db_signup_rejects (data : UserBody) (st : Store) :
  (ub_email data ∈ (user_email <$> collection_user st) ->
   db_signup bcrypt_hash data st =
   (Raises (HTTPException 401 "User already exists"), st))
  /\ (ub_email data ∉ (user_email <$> collection_user st) ->
      (len (ub_password data) < 6)%nat ->
      db_signup bcrypt_hash data st =
      (Raises (HTTPException 401 "Password is too short"), st)).
Proof.
  split.
  - intros H. rewrite db_signup_spec.
    destruct (find_email_Some _ _ H) as (u & -> & _). reflexivity.
  - intros H Hlen. rewrite db_signup_spec, (find_email_None _ _ H).
    destruct (Nat.ltb_spec (len (ub_password data)) 6); [reflexivity|lia].
Qed.

(** X17: [db_signup] with a free email and a password of at least 6
    characters that passlib hashes: the user is appended with the hash,
    not the password, in the password field; the answer carries the new
    id and the email and no password; a second signup with that email is
    refused, whatever its password. *)
Theorem db_signup_stores_hash (data : UserBody) (st : Store) (h : string) :
  ub_email data ∉ (user_email <$> collection_user st) ->
  (6 <= len (ub_password data))%nat ->
  bcrypt_hash (salts st (salts_drawn st)) (ub_password data) = Returns h ->
  next_oid (world st) ∉ (user_id <$> collection_user st) ->
  exists st1,
    db_signup bcrypt_hash data st =
    (Returns (mkUserInfo (str_of_oid (next_oid (world st))) (ub_email data)), st1)
    /\ collection_user st1 =
       collection_user st ++ [mkUserDoc (next_oid (world st)) (ub_email data) h]
    /\ collection_todo (world st1) = collection_todo (world st)
    /\ response (world st1) = response (world st)
    /\ forall data',
        ub_email data' = ub_email data ->
        fst (db_signup bcrypt_hash data' st1) =
        Raises (HTTPException 401 "User already exists").
Proof.
  intros He Hlen Hh Hid. rewrite db_signup_spec, (find_email_None _ _ He).
  destruct (Nat.ltb_spec (len (ub_password data)) 6); [lia|].
  rewrite Hh. cbv zeta.
  rewrite (find_id_app _ _ (mkUserDoc (next_oid (world st)) (ub_email data) h)
             Hid eq_refl).
  eexists. split; [reflexivity|]. split; [reflexivity|].
  split; [reflexivity|]. split; [reflexivity|].
  intros data' Hd. rewrite db_signup_spec. cbn [collection_user]. rewrite Hd.
  rewrite (find_email_app _ _ (mkUserDoc (next_oid (world st)) (ub_email data) h)
             He eq_refl). reflexivity.
Qed.

(** X18: [db_signup] keeps the emails of the user collection distinct and
    never removes or changes a stored user, whatever it returns or
    raises. *)
Theorem db_signup_keeps_emails_unique (data : UserBody) (st st1 : Store)
    (r : outcome UserInfo) :
  db_signup bcrypt_hash data st = (r, st1) ->
  collection_user st `prefix_of` collection_user st1
  /\ (NoDup (user_email <$> collection_user st) ->
      NoDup (user_email <$> collection_user st1)).
Proof.
  rewrite db_signup_spec.
  destruct (List.find _ (collection_user st)) as [u|] eqn:Ef.
  { intros H. inversion H; subst. split; [reflexivity|auto]. }
  destruct (Nat.ltb _ 6).
  { intros H. inversion H; subst. split; [reflexivity|auto]. }
  destruct (bcrypt_hash _ _) as [h|e]; cbv zeta.
  - intros H. inversion H; subst. cbn [collection_user].
    split; [apply prefix_app_r; reflexivity|].
    intros Hnd. rewrite fmap_app. apply NoDup_app. split; [exact Hnd|].
    split; [|apply NoDup_singleton].
    intros e He Hin. cbn in Hin. apply list_elem_of_singleton in Hin. subst e.
    destruct (find_email_Some _ _ He) as (u & Hf & _). congruence.
  - intros H. inversion H; subst. split; [reflexivity|auto].
Qed.

Lemma decode_fresh_token (s : string) (now : datetime) (w' : World) :
  now <= clock w' (ticks w') ->
  clock w' (ticks w') < (timegm now + 300) * 1000000 ->
  fst (decode_jwt (jwt_encode (mkPayload s now (now + timedelta 0 5)) secret_key) w') =
  Returns s.
Proof.
  intros Hle Hlt. unfold jwt_encode, secret_key. cbn [p_sub p_iat p_exp].
  rewrite timegm_five_minutes.
  change (mkClaims (Some s) (Some ?i) (Some ?e)) with (issued_claims s i e).
  rewrite decode_issued_token.
  - cbn [fst]. destruct (Z.leb_spec ((timegm now + 300) * 1000000)
                                    (clock w' (ticks w'))); [lia|reflexivity].
  - pose proof (timegm_le now). lia.
Qed.

Lemma db_login_spec (data : UserBody) (st : Store) :
  db_login bcrypt_verify data st =
  match List.find (fun u => String.eqb (user_email u) (ub_email data))
                  (collection_user st) with
  | None => (Raises (HTTPException 401 "Invalid credentials"), st)
  | Some u =>
      match (if bcrypt_identify (user_password u)
             then bcrypt_verify (ub_password data) (user_password u)
             else Raises UnknownHashError) with
      | Raises e => (Raises e, st)
      | Returns false => (Raises (HTTPException 401 "Invalid credentials"), st)
      | Returns true =>
          let w := world st in
          let now := clock w (ticks w) in
          let p := mkPayload (user_email u) now (now + timedelta 0 5) in
          (Returns (jwt_encode p secret_key),
           mkStore (log (CallJwtEncode p) (tick (log CallUtcnow w)))
                   (collection_user st) (salts st) (salts_drawn st))
      end
  end.
Proof.
  unfold db_login. rewrite bindS_unfold. unfold user_find_one_by_email.
  destruct (List.find _ (collection_user st)) as [u|]; [|reflexivity].
  rewrite bindS_unfold. unfold lift at 1, verify_password, pwd_ctx_verify.
  rewrite store_eta.
  destruct (if bcrypt_identify (user_password u) then _ else _) as [[|]|e];
    reflexivity.
Qed.

Lemma csrf_prefix_spec {A} (request : Request) (csrf_protect : CsrfProtect)
    (k : MS A) (st : Store) :
  (csrf_token ← lift (get_csrf_from_headers_call csrf_protect (headers request));
   _ ← lift (validate_csrf_call csrf_protect csrf_token);
   k) st =
  match get_csrf_from_headers csrf_protect (headers request) with
  | inl e =>
      (Raises (CsrfProtectError e),
       mkStore (log CallGetCsrfFromHeaders (world st))
               (collection_user st) (salts st) (salts_drawn st))
  | inr t =>
      let st_c := mkStore (log (CallValidateCsrf t)
                               (log CallGetCsrfFromHeaders (world st)))
                          (collection_user st) (salts st) (salts_drawn st) in
      match validate_csrf csrf_protect t with
      | Some e => (Raises (CsrfProtectError e), st_c)
      | None => k st_c
      end
  end.
Proof.
  rewrite bindS_unfold. unfold lift at 1, get_csrf_from_headers_call.
  destruct (get_csrf_from_headers csrf_protect (headers request)) as [e|t];
    [reflexivity|].
  rewrite bindS_unfold. unfold lift, validate_csrf_call.
  cbn [world collection_user salts salts_drawn].
  destruct (validate_csrf csrf_protect t); reflexivity.
Qed.

(** X19: A user who has just signed up can log in with the same email and
    password: [db_login] returns a token, changes no user, and the token
    decodes to the email until its expiry. *)
Theorem signup_then_login (data : UserBody) (st st1 : Store) (info : UserInfo) :
  db_signup bcrypt_hash data st = (Returns info, st1) ->
  exists token st2,
    db_login bcrypt_verify data st1 = (Returns token, st2)
    /\ collection_user st2 = collection_user st1
    /\ forall w',
        clock (world st1) (ticks (world st1)) <= clock w' (ticks w') ->
        clock w' (ticks w') <
        (timegm (clock (world st1) (ticks (world st1))) + 300) * 1000000 ->
        fst (decode_jwt token w') = Returns (ub_email data).
Proof.
  rewrite db_signup_spec.
  destruct (List.find _ (collection_user st)) as [u|] eqn:Ef; [discriminate|].
  destruct (Nat.ltb _ 6); [discriminate|].
  destruct (bcrypt_hash _ _) as [h|e] eqn:Eh; [|discriminate]. cbv zeta.
  intros H. injection H as _ Hst. subst st1.
  destruct (passlib_hash_verifies _ _ _ Eh) as [Hi Hv].
  assert (ub_email data ∉ (user_email <$> collection_user st)) as Hfree.
  { intros Hin. destruct (find_email_Some _ _ Hin) as (u & Hf & _). congruence. }
  rewrite db_login_spec. cbn [collection_user].
  rewrite (find_email_app _ _ (mkUserDoc (next_oid (world st)) (ub_email data) h)
             Hfree eq_refl).
  cbn [user_password user_email]. rewrite Hi, Hv. cbv zeta.
  eexists _, _. split; [reflexivity|]. split; [reflexivity|].
  cbn [world clock ticks with_collection].
  intros w' Hle Hlt. apply decode_fresh_token; assumption.
Qed.

(** X20: [db_login] answers an unknown email and a password that does not
    verify with the same 401 "Invalid credentials"; in both cases no
    token is issued and the store, clock included, is as it was.  A
    stored password that is no bcrypt hash makes it raise passlib's
    [UnknownHashError] instead. *)
Theorem db_login_rejects (data : UserBody) (st : Store) :
  (ub_email data ∉ (user_email <$> collection_user st) ->
   db_login bcrypt_verify data st =
   (Raises (HTTPException 401 "Invalid credentials"), st))
  /\ (forall u,
         List.find (fun u => String.eqb (user_email u) (ub_email data))
                   (collection_user st) = Some u ->
         (bcrypt_identify (user_password u) = true ->
          bcrypt_verify (ub_password data) (user_password u) = Returns false ->
          db_login bcrypt_verify data st =
          (Raises (HTTPException 401 "Invalid credentials"), st))
         /\ (bcrypt_identify (user_password u) = false ->
             db_login bcrypt_verify data st = (Raises UnknownHashError, st))).
Proof.
  split.
  - intros H. rewrite db_login_spec, (find_email_None _ _ H). reflexivity.
  - intros u Hf. split.
    + intros Hi Hv. rewrite db_login_spec, Hf, Hi, Hv. reflexivity.
    + intros Hi. rewrite db_login_spec, Hf, Hi. reflexivity.
Qed.

(** X21: [login] with a valid CSRF header and the credentials of a stored
    user answers "Logged in successfully." and appends one
    [access_token] cookie to the response; a later request that presents
    the value of that cookie before its expiry gets the email of the
    user from [get_user_refresh_jwt]. *)
Theorem login_then_get_user (request : Request) (user : UserBody)
    (csrf_protect : CsrfProtect) (st : Store) (t : string) (u : UserDoc) :
  get_csrf_from_headers csrf_protect (headers request) = inr t ->
  validate_csrf csrf_protect t = None ->
  List.find (fun u => String.eqb (user_email u) (ub_email user))
            (collection_user st) = Some u ->
  bcrypt_identify (user_password u) = true ->
  bcrypt_verify (ub_password user) (user_password u) = Returns true ->
  exists st1 c,
    login bcrypt_verify request user csrf_protect st =
    (Returns "Logged in successfully."%string, st1)
    /\ set_cookie_headers (response (world st1)) =
       set_cookie_headers (response (world st)) ++ [c]
    /\ ck_key c = "access_token"%string
    /\ collection_user st1 = collection_user st
    /\ forall request' w',
        cookies request' !! jwt_token_cookie_key = Some (ck_value c) ->
        clock (world st) (ticks (world st)) <= clock w' (ticks w') ->
        clock w' (ticks w') <
        (timegm (clock (world st) (ticks (world st))) + 300) * 1000000 ->
        fst (get_user_refresh_jwt request' w') = Returns (ub_email user).
Proof.
  intros Hg Hv Hf Hi Hb.
  assert (user_email u = ub_email user) as Hu.
  { apply List.find_some in Hf as [_ Hf]. apply String.eqb_eq. exact Hf. }
  unfold login. rewrite csrf_prefix_spec, Hg, Hv. cbv zeta.
  rewrite bindS_unfold, db_login_spec. cbn [collection_user].
  rewrite Hf, Hi, Hb. cbv zeta. rewrite bindS_unfold. unfold lift, set_cookie.
  cbn [world collection_user salts salts_drawn].
  eexists _, _. split; [reflexivity|]. split; [reflexivity|].
  split; [reflexivity|]. split; [reflexivity|].
  intros request' w' Hc Hle Hlt. cbn [ck_value bearer_cookie clock ticks log] in Hc.
  unfold jwt_encode, secret_key in Hc. cbn [p_sub p_iat p_exp] in Hc.
  rewrite timegm_five_minutes, Hu in Hc.
  change (mkClaims (Some ?s) (Some ?i) (Some ?e)) with (issued_claims s i e) in Hc.
  assert (timegm (clock (world st) (ticks (world st))) * 1000000
          <= clock w' (ticks w')) as Hi'.
  { pose proof (timegm_le (clock (world st) (ticks (world st)))). lia. }
  rewrite get_user_refresh_jwt_spec, (verify_jwt_bearer_issued _ _ _ _ Hc Hi').
  destruct (Z.leb_spec ((timegm (clock (world st) (ticks (world st))) + 300) * 1000000)
                       (clock w' (ticks w'))); [lia|].
  rewrite encode_jwt_spec. reflexivity.
Qed.

(** X22: [signup] and [login] check the CSRF header before anything else:
    when it is missing or does not validate, both raise the CSRF error
    and the user collection, the response, the clock and the salt source
    are as they were. *)
Theorem signup_login_need_csrf (request : Request) (user : UserBody)
    (csrf_protect : CsrfProtect) (st : Store) (e : csrf_error) :
  (get_csrf_from_headers csrf_protect (headers request) = inl e
   \/ exists t, get_csrf_from_headers csrf_protect (headers request) = inr t
                /\ validate_csrf csrf_protect t = Some e) ->
  exists st1,
    signup bcrypt_hash request user csrf_protect st = (Raises (CsrfProtectError e), st1)
    /\ login bcrypt_verify request user csrf_protect st =
       (Raises (CsrfProtectError e), st1)
    /\ collection_user st1 = collection_user st
    /\ response (world st1) = response (world st)
    /\ ticks (world st1) = ticks (world st)
    /\ salts_drawn st1 = salts_drawn st.
Proof.
  intros [Hg | (t & Hg & Hv)]; unfold signup, login;
    rewrite !csrf_prefix_spec, Hg; [|rewrite Hv];
    eexists; repeat split.
Qed.

(** X23: With a valid CSRF header, [login] sets no cookie unless the
    credentials verify: for an unknown email and for a password that
    does not verify it raises 401 "Invalid credentials" and the response
    and the user collection are unchanged. *)
Theorem login_sets_no_cookie_on_failure (request : Request) (user : UserBody)
    (csrf_protect : CsrfProtect) (st : Store) (t : string) :
  get_csrf_from_headers csrf_protect (headers request) = inr t ->
  validate_csrf csrf_protect t = None ->
  (ub_email user ∉ (user_email <$> collection_user st)
   \/ exists u,
       List.find (fun u => String.eqb (user_email u) (ub_email user))
                 (collection_user st) = Some u
       /\ bcrypt_identify (user_password u) = true
       /\ bcrypt_verify (ub_password user) (user_password u) = Returns false) ->
  exists st1,
    login bcrypt_verify request user csrf_protect st =
    (Raises (HTTPException 401 "Invalid credentials"), st1)
    /\ response (world st1) = response (world st)
    /\ collection_user st1 = collection_user st
    /\ ticks (world st1) = ticks (world st).
Proof.
  intros Hg Hv H. unfold login. rewrite csrf_prefix_spec, Hg, Hv. cbv zeta.
  rewrite bindS_unfold, db_login_spec. cbn [collection_user].
  destruct H as [H | (u & Hf & Hi & Hb)].
  - rewrite (find_email_None _ _ H). eexists. repeat split.
  - rewrite Hf, Hi, Hb. eexists. repeat split.
Qed.

(** X24: With a valid CSRF header, [signup] answers as [db_signup] does and
    sets the status 201 only when the user was created: a refused signup
    leaves the status, the response cookies and the user collection as
    they were. *)
Theorem signup_created (request : Request) (user : UserBody)
    (csrf_protect : CsrfProtect) (st : Store) (t : string) :
  get_csrf_from_headers csrf_protect (headers request) = inr t ->
  validate_csrf csrf_protect t = None ->
  (forall h,
      ub_email user ∉ (user_email <$> collection_user st) ->
      (6 <= len (ub_password user))%nat ->
      bcrypt_hash (salts st (salts_drawn st)) (ub_password user) = Returns h ->
      next_oid (world st) ∉ (user_id <$> collection_user st) ->
      exists st1,
        signup bcrypt_hash request user csrf_protect st =
        (Returns (mkUserInfo (str_of_oid (next_oid (world st))) (ub_email user)), st1)
        /\ response (world st1) =
           mkResponse (set_cookie_headers (response (world st))) (Some 201)
        /\ collection_user st1 =
           collection_user st ++ [mkUserDoc (next_oid (world st)) (ub_email user) h])
  /\ (ub_email user ∈ (user_email <$> collection_user st)
      \/ (len (ub_password user) < 6)%nat ->
      exists e st1,
        signup bcrypt_hash request user csrf_protect st = (Raises e, st1)
        /\ (e = HTTPException 401 "User already exists"
            \/ e = HTTPException 401 "Password is too short")
        /\ response (world st1) = response (world st)
        /\ collection_user st1 = collection_user st).
Proof.
  intros Hg Hv. unfold signup. rewrite csrf_prefix_spec, Hg, Hv. cbv zeta.
  rewrite bindS_unfold, db_signup_spec.
  cbn [world collection_user salts salts_drawn next_oid log collection_todo].
  split.
  - intros h He Hlen Hh Hid. rewrite (find_email_None _ _ He).
    destruct (Nat.ltb_spec (len (ub_password user)) 6); [lia|].
    rewrite Hh. cbv zeta.
    rewrite (find_id_app _ _ (mkUserDoc (next_oid (world st)) (ub_email user) h)
               Hid eq_refl).
    rewrite bindS_unfold. eexists. repeat split.
  - intros H.
    destruct (List.find _ (collection_user st)) as [u|] eqn:Ef.
    + eexists _, _. split; [reflexivity|]. split; [auto|]. split; reflexivity.
    + destruct H as [H|H].
      * destruct (find_email_Some _ _ H) as (u & Hf & _). congruence.
      * destruct (Nat.ltb_spec (len (ub_password user)) 6); [|lia].
        eexists _, _. split; [reflexivity|]. split; [auto|]. split; reflexivity.
Qed.

End UserProperties.

End Service.


(** * The reference codec meets the assumptions *)

Lemma ref_decodes_issued (k : string) :
  decodes_issued RefCodec.jws_encode RefCodec.jwt_decode k.
Proof.
  intros s i e now Hi. unfold RefCodec.jwt_decode, RefCodec.jws_encode.
  change (String.eqb (HexString.of_pos ?p) EmptyString) with false.
  cbv iota. rewrite HexString.to_pos_of_pos, decode_encode, String.eqb_refl.
  unfold RefCodec.validate_claims, issued_claims. cbn [iat exp sub].
  destruct (Z.ltb_spec now (i * 1000000)); [lia|reflexivity].
Qed.

Lemma ref_rejects_empty : rejects_empty RefCodec.jwt_decode.
Proof. intros k now. reflexivity. Qed.

(** * The properties at concrete requests *)

Ltac run := vm_compute; first [reflexivity | discriminate].

(** A create request with valid CSRF header and session: 201, the todo
    as stored, and the rotated cookie on the response. *)
Example create_todo_created :
  fst (create_todo RefCodec.key RefCodec.jws_encode RefCodec.jwt_decode
         (RefCodec.request_with
            (Some ("Bearer " +:+ RefCodec.token_of "alice@example.com" RefCodec.t_issue))
            (Some "csrf-ok"%string))
         (mkTodoBody "milk" "buy milk")
         RefCodec.csrf_protect (RefCodec.world_at (RefCodec.t_issue + 100))) =
  Returns (mkTodo "000000000000000000000000" "milk" "buy milk")
  /\ response
       (snd (create_todo RefCodec.key RefCodec.jws_encode RefCodec.jwt_decode
               (RefCodec.request_with
                  (Some ("Bearer " +:+ RefCodec.token_of "alice@example.com" RefCodec.t_issue))
                  (Some "csrf-ok"%string))
               (mkTodoBody "milk" "buy milk")
               RefCodec.csrf_protect (RefCodec.world_at (RefCodec.t_issue + 100)))) =
     mkResponse
       [bearer_cookie (RefCodec.token_of "alice@example.com" (RefCodec.t_issue + 200))]
       (Some 201).
Proof. split; run. Qed.

(** A delete request whose id is no [ObjectId]: the record function
    raises and nothing is written to the response. *)
Example delete_todo_invalid_id :
  fst (delete_todo RefCodec.key RefCodec.jws_encode RefCodec.jwt_decode
         (RefCodec.request_with
            (Some ("Bearer " +:+ RefCodec.token_of "alice@example.com" RefCodec.t_issue))
            (Some "csrf-ok"%string))
         "42" RefCodec.csrf_protect (RefCodec.world_at (RefCodec.t_issue + 100))) =
  Raises (InvalidId "42")
  /\ response
       (snd (delete_todo RefCodec.key RefCodec.jws_encode RefCodec.jwt_decode
               (RefCodec.request_with
                  (Some ("Bearer " +:+ RefCodec.token_of "alice@example.com" RefCodec.t_issue))
                  (Some "csrf-ok"%string))
               "42" RefCodec.csrf_protect (RefCodec.world_at (RefCodec.t_issue + 100)))) =
     mkResponse [] None.
Proof. split; run. Qed.

(** A session cookie presented a second after its expiry. *)
Example verify_jwt_expired :
  fst (verify_jwt RefCodec.key RefCodec.jwt_decode
         (RefCodec.request_with
            (Some ("Bearer " +:+ RefCodec.token_of "alice@example.com" RefCodec.t_issue))
            None)
         (RefCodec.world_at (RefCodec.t_issue + 301000000))) =
  Raises TokenExpired.
Proof. run. Qed.

(** The password check on a blob with a bcrypt identifier. *)
Example verify_password_identified :
  fst (verify_password RefCodec.bcrypt_verify "hunter2" "$2b$hunter2"
         (RefCodec.world_at RefCodec.t_issue)) = Returns true
  /\ fst (verify_password RefCodec.bcrypt_verify "hunter2" "$2b$other"
            (RefCodec.world_at RefCodec.t_issue)) = Returns false.
Proof. split; run. Qed.

(** A password of five characters whose last one is outside ASCII
    (U+00E9, two bytes in UTF-8) is too short for [db_signup]. *)
Example db_signup_counts_characters :
  len ("abcd" +:+ String "195" (String "169" EmptyString)) = 5%nat
  /\ fst (db_signup RefStore.bcrypt_hash
            (mkUserBody "alice@example.com"
                        ("abcd" +:+ String "195" (String "169" EmptyString)))
            (store_at RefCodec.t_issue [])) =
     Raises (HTTPException 401 "Password is too short").
Proof. split; run. Qed.

Lemma decode_encode_roundtrip_witness :
  decodes_issued RefCodec.jws_encode RefCodec.jwt_decode RefCodec.key
  /\ exists token w1 w2,
      encode_jwt RefCodec.key RefCodec.jws_encode "alice@example.com"
                 (RefCodec.world_at RefCodec.t_issue) = (Returns token, w1)
      /\ decode_jwt RefCodec.key RefCodec.jwt_decode token
                    (RefCodec.world_at (RefCodec.t_issue + 299999999)) =
         (Returns "alice@example.com"%string, w2).
Proof.
  split; [exact (ref_decodes_issued RefCodec.key)|].
  apply (decode_encode_roundtrip RefCodec.key _ _
           (ref_decodes_issued RefCodec.key)); run.
Defined.


Lemma verify_jwt_any_prefix_witness :
  rejects_empty RefCodec.jwt_decode
  /\ (forall before after,
         contains before " " = false ->
         ("Token " +:+ RefCodec.token_of "alice@example.com" RefCodec.t_issue)%string =
         before +:+ " " +:+ after ->
         verify_jwt RefCodec.key RefCodec.jwt_decode
           (RefCodec.request_with
              (Some ("Token " +:+ RefCodec.token_of "alice@example.com" RefCodec.t_issue))
              None)
           (RefCodec.world_at RefCodec.t_issue) =
         decode_jwt RefCodec.key RefCodec.jwt_decode after
           (log (CallCookiesGet jwt_token_cookie_key) (RefCodec.world_at RefCodec.t_issue)))
  /\ fst (verify_jwt RefCodec.key RefCodec.jwt_decode
            (RefCodec.request_with (Some "Bearer"%string) None)
            (RefCodec.world_at RefCodec.t_issue)) =
     Raises TokenInvalid.
Proof.
  split; [exact ref_rejects_empty|]. split.
  - apply (verify_jwt_any_prefix RefCodec.key _ ref_rejects_empty). reflexivity.
  - apply (verify_jwt_any_prefix RefCodec.key _ ref_rejects_empty _ _ "Bearer");
      reflexivity.
Defined.

Lemma rotation_expiry_from_now_witness :
  fst (verify_update_jwt RefCodec.key RefCodec.jws_encode RefCodec.jwt_decode
         (RefCodec.request_with
            (Some ("Bearer " +:+ RefCodec.token_of "alice@example.com" RefCodec.t_issue))
            None)
         (RefCodec.world_at (RefCodec.t_issue + 240000000))) =
  Returns (RefCodec.jws_encode
             (issued_claims "alice@example.com" (1700000000 + 240) (1700000000 + 240 + 300))
             RefCodec.key,
           "alice@example.com"%string).
Proof.
  refine (proj2 (proj2 (proj2
    (rotation_expiry_from_now RefCodec.key RefCodec.jws_encode RefCodec.jwt_decode
       (RefCodec.request_with
          (Some ("Bearer " +:+ RefCodec.token_of "alice@example.com" RefCodec.t_issue))
          None)
       (RefCodec.world_at (RefCodec.t_issue + 240000000))
       (snd (verify_jwt RefCodec.key RefCodec.jwt_decode
               (RefCodec.request_with
                  (Some ("Bearer " +:+ RefCodec.token_of "alice@example.com" RefCodec.t_issue))
                  None)
               (RefCodec.world_at (RefCodec.t_issue + 240000000))))
       "alice@example.com" _)))).
  apply run_eta. run.
Defined.

Lemma get_user_no_cookie_witness :
  exists w',
    get_user_refresh_jwt RefCodec.key RefCodec.jws_encode RefCodec.jwt_decode
      (RefCodec.request_with None None) (RefCodec.world_at RefCodec.t_issue) =
    (Raises SessionMissing, w')
    /\ response w' = response (RefCodec.world_at RefCodec.t_issue)
    /\ trace w' = trace (RefCodec.world_at RefCodec.t_issue)
                  ++ [CallCookiesGet jwt_token_cookie_key].
Proof.
  apply (get_user_no_cookie RefCodec.key RefCodec.jws_encode RefCodec.jwt_decode).
  reflexivity.
Defined.

Lemma csrf_checked_before_session_witness :
  fst (verify_jwt RefCodec.key RefCodec.jwt_decode
         (RefCodec.request_with
            (Some ("Bearer " +:+ RefCodec.token_of "alice@example.com" RefCodec.t_issue))
            None)
         (RefCodec.world_at (RefCodec.t_issue + 100))) =
  Returns "alice@example.com"%string
  /\ exists w',
      verify_csrf_update_jwt RefCodec.key RefCodec.jws_encode RefCodec.jwt_decode
        (RefCodec.request_with
           (Some ("Bearer " +:+ RefCodec.token_of "alice@example.com" RefCodec.t_issue))
           None)
        RefCodec.csrf_protect [] (RefCodec.world_at (RefCodec.t_issue + 100)) =
      (Raises (CsrfProtectError
                 (MissingTokenError "Bad headers. Expected `X-CSRF-Token` in headers")), w')
      /\ ticks w' = ticks (RefCodec.world_at (RefCodec.t_issue + 100))
      /\ response w' = response (RefCodec.world_at (RefCodec.t_issue + 100))
      /\ exists evs,
          trace w' = trace (RefCodec.world_at (RefCodec.t_issue + 100)) ++ evs
          /\ forallb csrf_event evs = true.
Proof.
  split; [run|].
  apply csrf_checked_before_session. left. reflexivity.
Defined.

Lemma rotation_same_subject_witness :
  exists t2 w2,
    verify_update_jwt RefCodec.key RefCodec.jws_encode RefCodec.jwt_decode
      (RefCodec.request_with
         (Some ("Bearer " +:+ RefCodec.token_of "alice@example.com" RefCodec.t_issue))
         None)
      (RefCodec.world_at (RefCodec.t_issue + 2000000)) =
    (Returns (t2, "alice@example.com"%string), w2)
    /\ (forall w3,
           clock (RefCodec.world_at (RefCodec.t_issue + 2000000)) 1 <= clock w3 (ticks w3) ->
           clock w3 (ticks w3) <
           timegm (clock (RefCodec.world_at (RefCodec.t_issue + 2000000)) 1 + timedelta 0 5)
           * 1000000 ->
           fst (decode_jwt RefCodec.key RefCodec.jwt_decode t2 w3) =
           Returns "alice@example.com"%string)
    /\ (timegm (clock (RefCodec.world_at (RefCodec.t_issue + 2000000)) 1) =
        timegm (clock (RefCodec.world_at RefCodec.t_issue) 0)
        <-> t2 = RefCodec.token_of "alice@example.com" RefCodec.t_issue).
Proof.
  apply (rotation_same_subject RefCodec.key _ _ (ref_decodes_issued RefCodec.key)
           "alice@example.com" (RefCodec.world_at RefCodec.t_issue)
           (snd (encode_jwt RefCodec.key RefCodec.jws_encode "alice@example.com"
                            (RefCodec.world_at RefCodec.t_issue))));
    [apply run_eta; run | run | run | run].
Defined.

(** * Where the code departs from the specification *)

(** With a valid CSRF header and a valid session, updating a todo that
    does not exist raises 404 after the rotated cookie has been set on
    the [Response] object; that object is dropped, and the reply is a
    404 without cookie. *)
Lemma update_missing_todo_reply :
  reply (update_todo RefCodec.key RefCodec.jws_encode RefCodec.jwt_decode
           (RefCodec.request_with
              (Some ("Bearer " +:+ RefCodec.token_of "alice@example.com" RefCodec.t_issue))
              (Some "csrf-ok"%string))
           "000000000000000000000000" (mkTodoBody "milk" "buy milk")
           RefCodec.csrf_protect)
        (RefCodec.world_at (RefCodec.t_issue + 100)) =
  mkReply (Some 404) [].
Proof. run. Qed.

Lemma update_missing_todo_sets_cookie :
  fst (update_todo RefCodec.key RefCodec.jws_encode RefCodec.jwt_decode
         (RefCodec.request_with
            (Some ("Bearer " +:+ RefCodec.token_of "alice@example.com" RefCodec.t_issue))
            (Some "csrf-ok"%string))
         "000000000000000000000000" (mkTodoBody "milk" "buy milk")
         RefCodec.csrf_protect (RefCodec.world_at (RefCodec.t_issue + 100))) =
  Raises (HTTPException 404 "Update task failed.")
  /\ set_cookie_headers
       (response
          (snd (update_todo RefCodec.key RefCodec.jws_encode RefCodec.jwt_decode
                  (RefCodec.request_with
                     (Some ("Bearer " +:+ RefCodec.token_of "alice@example.com" RefCodec.t_issue))
                     (Some "csrf-ok"%string))
                  "000000000000000000000000" (mkTodoBody "milk" "buy milk")
                  RefCodec.csrf_protect (RefCodec.world_at (RefCodec.t_issue + 100))))) =
     [bearer_cookie (RefCodec.token_of "alice@example.com" (RefCodec.t_issue + 200))]
  /\ set_cookie_headers (response (RefCodec.world_at (RefCodec.t_issue + 100))) = [].
Proof. repeat split; run. Qed.


(** C7 fails when the rotation happens in the second of issuance: the
    token returned by [verify_update_jwt] 200 microseconds after [t1] was
    issued is [t1] itself. *)
Lemma rotation_within_a_second_repeats_token :
  exists t1 t2,
    fst (encode_jwt RefCodec.key RefCodec.jws_encode "alice@example.com"
           (RefCodec.world_at RefCodec.t_issue)) = Returns t1
    /\ fst (verify_update_jwt RefCodec.key RefCodec.jws_encode RefCodec.jwt_decode
              (RefCodec.request_with (Some ("Bearer " +:+ t1)) None)
              (RefCodec.world_at (RefCodec.t_issue + 100))) =
       Returns (t2, "alice@example.com"%string)
    /\ t2 = t1.
Proof.
  exists (RefCodec.token_of "alice@example.com" RefCodec.t_issue),
         (RefCodec.token_of "alice@example.com" RefCodec.t_issue).
  repeat split; run.
Qed.

(** C8 fails on a blob that is not a bcrypt hash: [verify_password]
    raises instead of returning [false]. *)
Lemma verify_password_raises_on_malformed_blob :
  fst (verify_password RefCodec.bcrypt_verify "hunter2" "hunter2"
         (RefCodec.world_at RefCodec.t_issue)) = Raises UnknownHashError
  /\ fst (verify_password RefCodec.bcrypt_verify "hunter2" "hunter2"
            (RefCodec.world_at RefCodec.t_issue)) <> Returns false.
Proof. split; run. Qed.

(** * The further properties at concrete requests *)

Lemma pair_eta {A B} (x : A * B) (a : A) : fst x = a -> x = (a, snd x).
Proof. destruct x. simpl. intros ->. reflexivity. Qed.

Lemma ref_hash_verifies : hash_verifies RefCodec.bcrypt_verify RefStore.bcrypt_hash.
Proof.
  intros salt p h H. injection H as <-. split; [destruct p; reflexivity|].
  unfold RefCodec.bcrypt_verify. rewrite String.eqb_refl. reflexivity.
Qed.

Lemma todo_serializer_id_roundtrip_witness :
  ObjectId (todo_id (todo_serializer (255%N, mkTodoBody "milk" "buy milk")))
           (RefCodec.world_at RefCodec.t_issue) =
  (Returns 255%N, RefCodec.world_at RefCodec.t_issue).
Proof.
  apply (todo_serializer_id_roundtrip 255). reflexivity.
Defined.

Lemma db_create_then_get_witness :
  exists t w1,
    db_create_todo (mkTodoBody "milk" "buy milk") (RefCodec.world_at RefCodec.t_issue) =
    (Returns (IsDict t), w1)
    /\ fst (db_get_single_todo (todo_id t) w1) = Returns (IsDict t).
Proof.
  destruct (db_create_then_get (mkTodoBody "milk" "buy milk")
              (RefCodec.world_at RefCodec.t_issue) eq_refl)
    as (t & w1 & H1 & _ & _ & H2 & _).
  exists t, w1. split; assumption.
Defined.

Lemma db_update_then_get_witness :
  exists w1,
    db_update_todo "00000000000000000000000A" (mkTodoBody "milk" "buy oat milk")
      (world_with RefCodec.t_issue {[ 10%N := mkTodoBody "milk" "buy milk" ]} 11) =
    (Returns (IsDict (mkTodo "00000000000000000000000a" "milk" "buy oat milk")), w1)
    /\ fst (db_get_single_todo "00000000000000000000000A" w1) =
       Returns (IsDict (mkTodo "00000000000000000000000a" "milk" "buy oat milk")).
Proof.
  destruct (db_update_then_get "00000000000000000000000A"
              (mkTodoBody "milk" "buy oat milk")
              (world_with RefCodec.t_issue {[ 10%N := mkTodoBody "milk" "buy milk" ]} 11)
              10%N eq_refl)
    as (r & w1 & H1 & Hr & H2 & _).
  vm_compute in Hr. subst r. exists w1. split; assumption.
Defined.

Lemma db_delete_then_get_witness :
  exists w1,
    db_delete_todo "00000000000000000000000a"
      (world_with RefCodec.t_issue {[ 10%N := mkTodoBody "milk" "buy milk" ]} 11) =
    (Returns true, w1)
    /\ fst (db_delete_todo "00000000000000000000000a" w1) = Returns false.
Proof.
  destruct (db_delete_then_get "00000000000000000000000a"
              (world_with RefCodec.t_issue {[ 10%N := mkTodoBody "milk" "buy milk" ]} 11)
              10%N eq_refl)
    as (w1 & H1 & _ & _ & H2 & _).
  exists w1. split; assumption.
Defined.

Lemma db_invalid_id_witness :
  db_delete_todo "42" (RefCodec.world_at RefCodec.t_issue) =
  (Raises (InvalidId "42"), RefCodec.world_at RefCodec.t_issue)
  /\ db_get_single_todo "not-hexadecimal-but-24-c" (RefCodec.world_at RefCodec.t_issue) =
     (Raises (InvalidId "not-hexadecimal-but-24-c"), RefCodec.world_at RefCodec.t_issue).
Proof.
  split.
  - apply (db_invalid_id "42" (mkTodoBody "" "")). left. discriminate.
  - apply (db_invalid_id "not-hexadecimal-but-24-c" (mkTodoBody "" "")).
    right. reflexivity.
Defined.

Lemma mutation_needs_verification_witness :
  fst (delete_todo RefCodec.key RefCodec.jws_encode RefCodec.jwt_decode
         (RefCodec.request_with None (Some "csrf-ok"%string))
         "00000000000000000000000a" RefCodec.csrf_protect
         (world_with RefCodec.t_issue {[ 10%N := mkTodoBody "milk" "buy milk" ]} 11)) =
  Raises SessionMissing
  /\ collection_todo
       (snd (delete_todo RefCodec.key RefCodec.jws_encode RefCodec.jwt_decode
               (RefCodec.request_with None (Some "csrf-ok"%string))
               "00000000000000000000000a" RefCodec.csrf_protect
               (world_with RefCodec.t_issue {[ 10%N := mkTodoBody "milk" "buy milk" ]} 11))) =
     {[ 10%N := mkTodoBody "milk" "buy milk" ]}.
Proof.
  destruct (mutation_needs_verification RefCodec.key RefCodec.jws_encode
              RefCodec.jwt_decode
              (RefCodec.request_with None (Some "csrf-ok"%string))
              "00000000000000000000000a" (mkTodoBody "" "") RefCodec.csrf_protect
              (world_with RefCodec.t_issue {[ 10%N := mkTodoBody "milk" "buy milk" ]} 11)
              _ SessionMissing (pair_eta _ _ eq_refl))
    as (_ & _ & Hd & Hc & _).
  rewrite Hd. split; [reflexivity|exact Hc].
Defined.

Lemma mutation_succeeds_witness :
  (exists w2,
      create_todo RefCodec.key RefCodec.jws_encode RefCodec.jwt_decode
        (RefCodec.request_with
           (Some ("Bearer " +:+ RefCodec.token_of "alice@example.com" RefCodec.t_issue))
           (Some "csrf-ok"%string))
        (mkTodoBody "milk" "buy milk") RefCodec.csrf_protect
        (RefCodec.world_at (RefCodec.t_issue + 100)) =
      (Returns (mkTodo "000000000000000000000000" "milk" "buy milk"), w2)
      /\ collection_todo w2 = <[0%N := mkTodoBody "milk" "buy milk"]> ∅)
  /\ (exists w2,
         delete_todo RefCodec.key RefCodec.jws_encode RefCodec.jwt_decode
           (RefCodec.request_with
              (Some ("Bearer " +:+ RefCodec.token_of "alice@example.com" RefCodec.t_issue))
              (Some "csrf-ok"%string))
           "00000000000000000000000a" RefCodec.csrf_protect
           (world_with (RefCodec.t_issue + 100)
                       {[ 10%N := mkTodoBody "milk" "buy milk" ]} 11) =
         (Returns "Successfully deleted."%string, w2)
         /\ collection_todo w2 = delete 10%N {[ 10%N := mkTodoBody "milk" "buy milk" ]}).
Proof.
  split.
  - destruct (mutation_succeeds RefCodec.key RefCodec.jws_encode RefCodec.jwt_decode
                (RefCodec.request_with
                   (Some ("Bearer " +:+ RefCodec.token_of "alice@example.com" RefCodec.t_issue))
                   (Some "csrf-ok"%string))
                "" (mkTodoBody "milk" "buy milk") RefCodec.csrf_protect
                (RefCodec.world_at (RefCodec.t_issue + 100))
                _ (RefCodec.token_of "alice@example.com" (RefCodec.t_issue + 200))
                (pair_eta _ _ ltac:(run)))
      as ((w2 & Hc & Hs & _) & _).
    exists w2. split; assumption.
  - destruct (mutation_succeeds RefCodec.key RefCodec.jws_encode RefCodec.jwt_decode
                (RefCodec.request_with
                   (Some ("Bearer " +:+ RefCodec.token_of "alice@example.com" RefCodec.t_issue))
                   (Some "csrf-ok"%string))
                "00000000000000000000000a" (mkTodoBody "" "") RefCodec.csrf_protect
                (world_with (RefCodec.t_issue + 100)
                            {[ 10%N := mkTodoBody "milk" "buy milk" ]} 11)
                _ (RefCodec.token_of "alice@example.com" (RefCodec.t_issue + 200))
                (pair_eta _ _ ltac:(run)))
      as (_ & H).
    destruct (H 10%N (mkTodoBody "milk" "buy milk") eq_refl eq_refl)
      as (_ & w2 & Hd & Hc & _).
    exists w2. split; assumption.
Defined.

Lemma get_single_todo_reply_witness :
  reply (get_single_todo RefCodec.key RefCodec.jws_encode RefCodec.jwt_decode
           (RefCodec.request_with
              (Some ("Bearer " +:+ RefCodec.token_of "alice@example.com" RefCodec.t_issue))
              None)
           "00000000000000000000000b")
        (world_with (RefCodec.t_issue + 100)
                    {[ 10%N := mkTodoBody "milk" "buy milk" ]} 11) =
  mkReply (Some 404) []
  /\ reply (get_single_todo RefCodec.key RefCodec.jws_encode RefCodec.jwt_decode
              (RefCodec.request_with
                 (Some ("Bearer " +:+ RefCodec.token_of "alice@example.com" RefCodec.t_issue))
                 None)
              "00000000000000000000000a")
           (world_with (RefCodec.t_issue + 100)
                       {[ 10%N := mkTodoBody "milk" "buy milk" ]} 11) =
     mkReply (Some 200)
             [bearer_cookie (RefCodec.token_of "alice@example.com" (RefCodec.t_issue + 200))].
Proof.
  split.
  - pose proof (get_single_todo_reply RefCodec.key RefCodec.jws_encode
                  RefCodec.jwt_decode
                  (RefCodec.request_with
                     (Some ("Bearer " +:+ RefCodec.token_of "alice@example.com" RefCodec.t_issue))
                     None)
                  "00000000000000000000000b"
                  (world_with (RefCodec.t_issue + 100)
                              {[ 10%N := mkTodoBody "milk" "buy milk" ]} 11)
                  11%N eq_refl) as H.
    vm_compute in H. vm_compute. exact (proj2 H).
  - pose proof (get_single_todo_reply RefCodec.key RefCodec.jws_encode
                  RefCodec.jwt_decode
                  (RefCodec.request_with
                     (Some ("Bearer " +:+ RefCodec.token_of "alice@example.com" RefCodec.t_issue))
                     None)
                  "00000000000000000000000a"
                  (world_with (RefCodec.t_issue + 100)
                              {[ 10%N := mkTodoBody "milk" "buy milk" ]} 11)
                  10%N eq_refl) as H.
    vm_compute in H. vm_compute. exact (proj2 H).
Defined.

Lemma session_slides_witness :
  fst (get_user_refresh_jwt RefCodec.key RefCodec.jws_encode RefCodec.jwt_decode
         (RefCodec.request_with
            (Some ("Bearer " +:+ RefCodec.token_of "alice@example.com"
                                                   (RefCodec.t_issue + 200)))
            None)
         (RefCodec.world_at (RefCodec.t_issue + 299000000))) =
  Returns "alice@example.com"%string.
Proof.
  destruct (session_slides RefCodec.key _ _ (ref_decodes_issued RefCodec.key)
              (RefCodec.request_with
                 (Some ("Bearer " +:+ RefCodec.token_of "alice@example.com" RefCodec.t_issue))
                 None)
              (RefCodec.world_at (RefCodec.t_issue + 100)) _ "alice@example.com"
              (pair_eta _ _ ltac:(run)))
    as (c & Hc & _ & _ & Hnext).
  vm_compute in Hc. injection Hc as <-.
  apply Hnext; run.
Defined.

Lemma db_signup_stores_hash_witness :
  exists st1,
    db_signup RefStore.bcrypt_hash (mkUserBody "alice@example.com" "abcdef")
              (store_at RefCodec.t_issue []) =
    (Returns (mkUserInfo "000000000000000000000000" "alice@example.com"), st1)
    /\ collection_user st1 = [mkUserDoc 0 "alice@example.com" "$2b$abcdef"]
    /\ fst (db_signup RefStore.bcrypt_hash (mkUserBody "alice@example.com" "another one")
                      st1) =
       Raises (HTTPException 401 "User already exists").
Proof.
  destruct (db_signup_stores_hash RefStore.bcrypt_hash
              (mkUserBody "alice@example.com" "abcdef")
              (store_at RefCodec.t_issue []) "$2b$abcdef")
    as (st1 & H1 & H2 & _ & _ & H3).
  - apply not_elem_of_nil.
  - simpl. lia.
  - reflexivity.
  - apply not_elem_of_nil.
  - exists st1. split; [exact H1|]. split; [exact H2|]. apply H3. reflexivity.
Defined.

Lemma db_signup_keeps_emails_unique_witness :
  NoDup (user_email <$>
         collection_user
           (snd (db_signup RefStore.bcrypt_hash (mkUserBody "bob@example.com" "abcdef")
                           (store_at RefCodec.t_issue
                                     [mkUserDoc 0 "alice@example.com" "$2b$abcdef"])))).
Proof.
  apply (db_signup_keeps_emails_unique RefStore.bcrypt_hash
           (mkUserBody "bob@example.com" "abcdef")
           (store_at RefCodec.t_issue [mkUserDoc 0 "alice@example.com" "$2b$abcdef"])
           _ _ (pair_eta _ _ eq_refl)).
  apply NoDup_singleton.
Defined.

Lemma signup_then_login_witness :
  exists token st2,
    db_login RefCodec.key RefCodec.jws_encode RefCodec.bcrypt_verify
             (mkUserBody "alice@example.com" "abcdef")
             (snd (db_signup RefStore.bcrypt_hash (mkUserBody "alice@example.com" "abcdef")
                             (store_at RefCodec.t_issue []))) =
    (Returns token, st2)
    /\ fst (decode_jwt RefCodec.key RefCodec.jwt_decode token
                       (RefCodec.world_at (RefCodec.t_issue + 1000000))) =
       Returns "alice@example.com"%string.
Proof.
  destruct (signup_then_login RefCodec.key _ _ (ref_decodes_issued RefCodec.key)
              _ _ ref_hash_verifies
              (mkUserBody "alice@example.com" "abcdef")
              (store_at RefCodec.t_issue []) _
              (mkUserInfo "000000000000000000000000" "alice@example.com")
              (pair_eta _ _ ltac:(run)))
    as (token & st2 & H1 & _ & H2).
  exists token, st2. split; [exact H1|]. apply H2; run.
Defined.

Lemma login_then_get_user_witness :
  exists st1,
    login RefCodec.key RefCodec.jws_encode RefCodec.bcrypt_verify
          (RefCodec.request_with None (Some "csrf-ok"%string))
          (mkUserBody "alice@example.com" "abcdef") RefCodec.csrf_protect
          (store_at RefCodec.t_issue [mkUserDoc 0 "alice@example.com" "$2b$abcdef"]) =
    (Returns "Logged in successfully."%string, st1)
    /\ fst (get_user_refresh_jwt RefCodec.key RefCodec.jws_encode RefCodec.jwt_decode
              (RefCodec.request_with
                 (Some ("Bearer " +:+ RefCodec.token_of "alice@example.com" RefCodec.t_issue))
                 None)
              (RefCodec.world_at (RefCodec.t_issue + 60000000))) =
       Returns "alice@example.com"%string.
Proof.
  destruct (login_then_get_user RefCodec.key _ _ (ref_decodes_issued RefCodec.key)
              RefCodec.bcrypt_verify
              (RefCodec.request_with None (Some "csrf-ok"%string))
              (mkUserBody "alice@example.com" "abcdef") RefCodec.csrf_protect
              (store_at RefCodec.t_issue [mkUserDoc 0 "alice@example.com" "$2b$abcdef"])
              "csrf-ok" (mkUserDoc 0 "alice@example.com" "$2b$abcdef")
              eq_refl eq_refl eq_refl eq_refl eq_refl)
    as (st1 & c & H1 & Hc & _ & _ & Hnext).
  exists st1. split; [exact H1|].
  apply (f_equal snd) in H1. cbn [snd] in H1. subst st1.
  vm_compute in Hc. injection Hc as <-.
  apply Hnext; run.
Defined.

Lemma signup_login_need_csrf_witness :
  exists st1,
    signup RefStore.bcrypt_hash (RefCodec.request_with None None)
           (mkUserBody "alice@example.com" "abcdef") RefCodec.csrf_protect
           (store_at RefCodec.t_issue []) =
    (Raises (CsrfProtectError
               (MissingTokenError "Bad headers. Expected `X-CSRF-Token` in headers")), st1)
    /\ collection_user st1 = [].
Proof.
  destruct (signup_login_need_csrf RefCodec.key RefCodec.jws_encode
              RefCodec.bcrypt_verify RefStore.bcrypt_hash
              (RefCodec.request_with None None)
              (mkUserBody "alice@example.com" "abcdef") RefCodec.csrf_protect
              (store_at RefCodec.t_issue [])
              (MissingTokenError "Bad headers. Expected `X-CSRF-Token` in headers")
              (or_introl eq_refl))
    as (st1 & H1 & _ & H2 & _).
  exists st1. split; assumption.
Defined.

Lemma login_sets_no_cookie_on_failure_witness :
  exists st1,
    login RefCodec.key RefCodec.jws_encode RefCodec.bcrypt_verify
          (RefCodec.request_with None (Some "csrf-ok"%string))
          (mkUserBody "alice@example.com" "wrong password") RefCodec.csrf_protect
          (store_at RefCodec.t_issue [mkUserDoc 0 "alice@example.com" "$2b$abcdef"]) =
    (Raises (HTTPException 401 "Invalid credentials"), st1)
    /\ response (world st1) = mkResponse [] None.
Proof.
  destruct (login_sets_no_cookie_on_failure RefCodec.key RefCodec.jws_encode
              RefCodec.bcrypt_verify
              (RefCodec.request_with None (Some "csrf-ok"%string))
              (mkUserBody "alice@example.com" "wrong password") RefCodec.csrf_protect
              (store_at RefCodec.t_issue [mkUserDoc 0 "alice@example.com" "$2b$abcdef"])
              "csrf-ok" eq_refl eq_refl)
    as (st1 & H1 & H2 & _).
  - right. exists (mkUserDoc 0 "alice@example.com" "$2b$abcdef").
    repeat split; reflexivity.
  - exists st1. split; assumption.
Defined.

Lemma signup_created_witness :
  (exists st1,
      signup RefStore.bcrypt_hash (RefCodec.request_with None (Some "csrf-ok"%string))
             (mkUserBody "alice@example.com" "abcdef") RefCodec.csrf_protect
             (store_at RefCodec.t_issue []) =
      (Returns (mkUserInfo "000000000000000000000000" "alice@example.com"), st1)
      /\ response (world st1) = mkResponse [] (Some 201))
  /\ (exists e st1,
         signup RefStore.bcrypt_hash (RefCodec.request_with None (Some "csrf-ok"%string))
                (mkUserBody "alice@example.com" "abc") RefCodec.csrf_protect
                (store_at RefCodec.t_issue []) = (Raises e, st1)
         /\ e = HTTPException 401 "Password is too short"
         /\ response (world st1) = mkResponse [] None).
Proof.
  split.
  - destruct (proj1 (signup_created RefStore.bcrypt_hash
                       (RefCodec.request_with None (Some "csrf-ok"%string))
                       (mkUserBody "alice@example.com" "abcdef") RefCodec.csrf_protect
                       (store_at RefCodec.t_issue []) "csrf-ok" eq_refl eq_refl)
                    "$2b$abcdef")
      as (st1 & H1 & H2 & _).
    + apply not_elem_of_nil.
    + simpl. lia.
    + reflexivity.
    + apply not_elem_of_nil.
    + exists st1. split; assumption.
  - destruct (proj2 (signup_created RefStore.bcrypt_hash
                       (RefCodec.request_with None (Some "csrf-ok"%string))
                       (mkUserBody "alice@example.com" "abc") RefCodec.csrf_protect
                       (store_at RefCodec.t_issue []) "csrf-ok" eq_refl eq_refl))
      as (e & st1 & H1 & [He|He] & H2 & _).
    + right. simpl. lia.
    + exfalso. subst e. apply (f_equal fst) in H1. vm_compute in H1. discriminate.
    + exists e, st1. repeat split; assumption.
Defined.

Lemma encode_jwt_injective_witness :
  timegm (clock (RefCodec.world_at RefCodec.t_issue) 0) =
  timegm (clock (RefCodec.world_at (RefCodec.t_issue + 999999)) 0).
Proof.
  apply (encode_jwt_injective RefCodec.key _ _ (ref_decodes_issued RefCodec.key)
           "alice@example.com" "alice@example.com"
           (RefCodec.world_at RefCodec.t_issue)
           (RefCodec.world_at (RefCodec.t_issue + 999999))).
  run.
Defined.

Lemma missing_sub_escapes_witness :
  fst (get_user_refresh_jwt RefCodec.key RefCodec.jws_encode RefCodec.jwt_decode
         (RefCodec.request_with
            (Some ("Bearer " +:+
                   RefCodec.jws_encode (mkClaims None (Some 1700000000) (Some 1700000300))
                                       RefCodec.key))
            None)
         (RefCodec.world_at (RefCodec.t_issue + 100))) =
  Raises (KeyError "sub").
Proof.
  apply (missing_sub_escapes RefCodec.key RefCodec.jws_encode RefCodec.jwt_decode _ _
           (RefCodec.jws_encode (mkClaims None (Some 1700000000) (Some 1700000300))
                                RefCodec.key)
           (mkClaims None (Some 1700000000) (Some 1700000300))); run.
Defined.
